(** * simplerest: a CRUD service over one SQLite table

    A shallow embedding of [main.go]: the [Item] record, the five HTTP
    handlers and the router of [main], over a model of the [items] table
    that [initDB] creates

      CREATE TABLE IF NOT EXISTS items (
        id INTEGER PRIMARY KEY AUTOINCREMENT,
        name TEXT NOT NULL UNIQUE);

    Handlers are functions from the store before the request to the response
    and the store after it.  The global mutex [dbMu] serialises every
    statement, so a handler is modelled as one atomic step. *)

From Stdlib Require Import ZArith List String Ascii Bool Lia Sorted.
From Stdlib Require Import DecimalString DecimalPos.
Import ListNotations.

Set Warnings "-register-all".

Local Open Scope string_scope.
Local Open Scope Z_scope.

(** ** Go values *)

(** [type Item struct { ID int; Name string }] *)
Record Item := mkItem { ID : Z; Name : string }.

(** The zero value of [Item], what [var item Item] declares. *)
Definition zeroItem : Item := mkItem 0 "".

(** Go's [int] on the 64-bit targets the service is built for. *)
Definition intSize : Z := 64.
Definition minInt : Z := - 2 ^ (intSize - 1).
Definition maxInt : Z := 2 ^ (intSize - 1) - 1.

(** The conversion [int(id)] of an [int64]: two's complement wrap-around
    to [intSize] bits. *)
Definition toInt (z : Z) : Z :=
  (z + 2 ^ (intSize - 1)) mod 2 ^ intSize - 2 ^ (intSize - 1).

(** A Go slice: [var items []Item] is the nil slice, which is not the same
    value as an empty non-nil slice. *)
Inductive slice (A : Type) : Type :=
| nilSlice : slice A
| Slice : list A -> slice A.
Arguments nilSlice {A}.
Arguments Slice {A} _.

(** The builtin [append(s, x)]. *)
Definition append {A : Type} (s : slice A) (x : A) : slice A :=
  match s with
  | nilSlice => Slice [x]
  | Slice l => Slice (l ++ [x])
  end.

Definition elems {A : Type} (s : slice A) : list A :=
  match s with
  | nilSlice => []
  | Slice l => l
  end.

(** ** strconv.Atoi *)

Definition isDigit (c : ascii) : bool :=
  let n := Z.of_N (N_of_ascii c) in (48 <=? n) && (n <=? 57).

Definition digitVal (c : ascii) : Z := Z.of_N (N_of_ascii c) - 48.

(** The digit loop: every byte must be a decimal digit. *)
Fixpoint parseDigits (s : string) (acc : Z) : option Z :=
  match s with
  | EmptyString => Some acc
  | String c rest =>
      if isDigit c then parseDigits rest (acc * 10 + digitVal c) else None
  end.

(** [strconv.Atoi]: an optional sign, then at least one decimal digit, and a
    value that fits [int]; [None] stands for a non-nil error (syntax or
    range). *)
Definition Atoi (s : string) : option Z :=
  match s with
  | EmptyString => None
  | String c rest =>
      let neg := Ascii.eqb c "-"%char in
      let digits := if neg || Ascii.eqb c "+"%char then rest else s in
      match digits with
      | EmptyString => None
      | _ =>
          match parseDigits digits 0 with
          | None => None
          | Some n =>
              let v := if neg then - n else n in
              if (minInt <=? v) && (v <=? maxInt) then Some v else None
          end
      end
  end.

(** The decimal rendering of an id, as [strconv.Itoa] gives it and as a
    client writes it into the path of a request. *)
Definition Itoa (z : Z) : string := NilZero.string_of_int (Z.to_int z).

(** The value of a sequence of decimal digits read from the left, starting
    from [acc]. *)
Fixpoint uintVal (u : Decimal.uint) (acc : Z) : Z :=
  match u with
  | Decimal.Nil => acc
  | Decimal.D0 u => uintVal u (acc * 10 + 0)
  | Decimal.D1 u => uintVal u (acc * 10 + 1)
  | Decimal.D2 u => uintVal u (acc * 10 + 2)
  | Decimal.D3 u => uintVal u (acc * 10 + 3)
  | Decimal.D4 u => uintVal u (acc * 10 + 4)
  | Decimal.D5 u => uintVal u (acc * 10 + 5)
  | Decimal.D6 u => uintVal u (acc * 10 + 6)
  | Decimal.D7 u => uintVal u (acc * 10 + 7)
  | Decimal.D8 u => uintVal u (acc * 10 + 8)
  | Decimal.D9 u => uintVal u (acc * 10 + 9)
  end.

(** ** encoding/json *)

(** A JSON value.  A number written as an integer is kept as that integer,
    a number written with a fraction or an exponent as its text; an object
    keeps its members in the order and with the repetitions of the text. *)
Inductive json : Type :=
| JNull : json
| JBool : bool -> json
| JNumber : Z -> json
| JFloat : string -> json
| JString : string -> json
| JArray : list json -> json
| JObject : list (string * json) -> json.

(** [json.Marshal] of an [Item], with the field tags [id] and [name]. *)
Definition marshalItem (i : Item) : json :=
  JObject [("id", JNumber (ID i)); ("name", JString (Name i))].

(** [json.Marshal] of a [[]Item]: a nil slice is encoded as [null], any other
    slice as an array. *)
Definition marshalItems (s : slice Item) : json :=
  match s with
  | nilSlice => JNull
  | Slice l => JArray (map marshalItem l)
  end.

(** A request body as [json.NewDecoder(r.Body).Decode] reads it.  The decoder
    skips white space and reads one JSON value; it stops at the end of that
    value and never looks at the bytes behind it.  So a body is either one
    that gives no complete value (it is empty, or a syntax error comes before
    the first value ends), or a first value followed by the rest of the
    bytes. *)
Inductive Body : Type :=
| NoValue : Body
| FirstValue : json -> string -> Body.

(** The white space of JSON. *)
Definition isSpace (c : ascii) : bool :=
  let n := N_of_ascii c in
  (n =? 32)%N || (n =? 9)%N || (n =? 10)%N || (n =? 13)%N.

Fixpoint allSpace (s : string) : bool :=
  match s with
  | EmptyString => true
  | String c rest => isSpace c && allSpace rest
  end.

(** A body that is a JSON text: one value, and nothing but white space
    behind it. *)
Definition validJSON (b : Body) : bool :=
  match b with
  | NoValue => false
  | FirstValue _ rest => allSpace rest
  end.

(** Object keys are matched with the field tags without regard to the case
    of ASCII letters. *)
Definition lower (c : ascii) : ascii :=
  let n := N_of_ascii c in
  if ((65 <=? n) && (n <=? 90))%N then ascii_of_N (n + 32) else c.

Fixpoint equalFold (s t : string) : bool :=
  match s, t with
  | EmptyString, EmptyString => true
  | String c s', String c' t' => Ascii.eqb (lower c) (lower c') && equalFold s' t'
  | _, _ => false
  end.

(** Storing a JSON value into [item.ID], an [int]: [null] leaves the field,
    an integer that fits [int] sets it, anything else is an
    [UnmarshalTypeError] ([None]). *)
Definition storeID (v : json) (item : Item) : option Item :=
  match v with
  | JNull => Some item
  | JNumber z =>
      if (minInt <=? z) && (z <=? maxInt) then Some (mkItem z (Name item))
      else None
  | _ => None
  end.

(** Storing a JSON value into [item.Name], a [string]. *)
Definition storeName (v : json) (item : Item) : option Item :=
  match v with
  | JNull => Some item
  | JString s => Some (mkItem (ID item) s)
  | _ => None
  end.

(** The members of an object are stored one after the other, a later member
    over an earlier one; members with other keys are skipped. *)
Fixpoint decodeObject (members : list (string * json)) (item : Item)
  : option Item :=
  match members with
  | [] => Some item
  | (key, v) :: rest =>
      if equalFold key "id" then
        match storeID v item with
        | Some item' => decodeObject rest item'
        | None => None
        end
      else if equalFold key "name" then
        match storeName v item with
        | Some item' => decodeObject rest item'
        | None => None
        end
      else decodeObject rest item
  end.

(** [Decode(&item)]: [None] stands for a non-nil error.  [null] leaves
    [item] as it is, an object is stored member by member, and any other
    value does not fit a struct. *)
Definition Decode (b : Body) (item : Item) : option Item :=
  match b with
  | NoValue => None
  | FirstValue JNull _ => Some item
  | FirstValue (JObject members) _ => decodeObject members item
  | FirstValue _ _ => None
  end.

(** The body that is the object with the given [id] and [name] members, in
    that order, and nothing behind it. *)
Definition ItemBody (id : option Z) (name : option string) : Body :=
  FirstValue
    (JObject
       ((match id with Some z => [("id", JNumber z)] | None => [] end)
        ++ (match name with Some s => [("name", JString s)] | None => [] end)))
    "".

(** ** net/http responses *)

Inductive Payload : Type :=
| Empty : Payload
| Text : string -> Payload
| Json : json -> Payload.

Record Response := mkResponse
  { status : Z; contentType : option string; payload : Payload }.

Definition StatusOK : Z := 200.
Definition StatusCreated : Z := 201.
Definition StatusNoContent : Z := 204.
Definition StatusBadRequest : Z := 400.
Definition StatusNotFound : Z := 404.
Definition StatusInternalServerError : Z := 500.

(** [http.Error(w, msg, code)]: a plain-text body with the given status. *)
Definition httpError (msg : string) (code : Z) : Response :=
  mkResponse code (Some "text/plain; charset=utf-8") (Text msg).

(** Setting the JSON content type, writing the header [code] and encoding
    [v] to the response writer. *)
Definition writeJSON (code : Z) (v : json) : Response :=
  mkResponse code (Some "application/json") (Json v).

(** ** The store *)

(** The [items] table in rowid order, and the row of [sqlite_sequence] that
    AUTOINCREMENT keeps for it: the largest rowid ever assigned. *)
Record DB := mkDB { items : list Item; sqlite_sequence : Z }.

Definition emptyDB : DB := mkDB [] 0.

(** Whether the store answers a statement, or fails it with an I/O error
    before touching the table. *)
Inductive Health : Type := Healthy | Failing.

Inductive error : Type :=
| ErrNoRows : error
| ErrConstraintUnique : error
| ErrFull : error
| ErrIO : error.

Inductive result (A : Type) : Type :=
| Ok : A -> result A
| Err : error -> result A.
Arguments Ok {A} _.
Arguments Err {A} _.

(** [sql.Result] *)
Record Result := mkResult { lastInsertId : Z; rowsAffected : Z }.

Definition LastInsertId (r : Result) : result Z := Ok (lastInsertId r).
Definition RowsAffected (r : Result) : result Z := Ok (rowsAffected r).

(** The largest rowid SQLite hands out. *)
Definition maxRowid : Z := 2 ^ 63 - 1.

Definition hasID (id : Z) (r : Item) : bool := ID r =? id.
Definition hasName (n : string) (r : Item) : bool := String.eqb (Name r) n.

(** The largest rowid in the table, 0 for an empty table. *)
Definition maxID (rows : list Item) : Z :=
  fold_right (fun r m => Z.max (ID r) m) 0 rows.

(** [initDB]: open the store and run CREATE TABLE IF NOT EXISTS.  A store
    file that already holds the table is kept as it is; [None] is the fatal
    exit of [log.Fatalf]. *)
Definition initDB (h : Health) (file : option DB) : option DB :=
  match h with
  | Failing => None
  | Healthy =>
      match file with
      | None => Some emptyDB
      | Some d => Some d
      end
  end.

(** [db.Exec("INSERT INTO items (name) VALUES (?)", name)].  The new rowid is
    one more than the largest of the rowids in the table and the
    AUTOINCREMENT sequence; the statement fails when no rowid is left or
    when the name is already in the table, and then changes nothing. *)
Definition execInsert (h : Health) (name : string) (d : DB) : result Result * DB :=
  match h with
  | Failing => (Err ErrIO, d)
  | Healthy =>
      let top := Z.max (maxID (items d)) (sqlite_sequence d) in
      if maxRowid <=? top then (Err ErrFull, d)
      else if existsb (hasName name) (items d) then (Err ErrConstraintUnique, d)
      else
        let id := top + 1 in
        (Ok (mkResult id 1), mkDB (items d ++ [mkItem id name]) id)
  end.

(** What an UPDATE that sets the name of the rows with rowid [id] makes of
    a row. *)
Definition renamed (id : Z) (name : string) (r : Item) : Item :=
  if hasID id r then mkItem (ID r) name else r.

(** [db.Exec("UPDATE items SET name = ? WHERE id = ?", name, id)].  Rows are
    counted as affected when the WHERE clause selects them, whether or not
    the name they get differs from the one they had. *)
Definition execUpdate (h : Health) (name : string) (id : Z) (d : DB)
  : result Result * DB :=
  match h with
  | Failing => (Err ErrIO, d)
  | Healthy =>
      if existsb (hasID id) (items d) then
        if existsb (fun r => negb (hasID id r) && hasName name r) (items d)
        then (Err ErrConstraintUnique, d)
        else
          (Ok (mkResult 0 (Z.of_nat (List.length (filter (hasID id) (items d))))),
           mkDB (map (renamed id name) (items d)) (sqlite_sequence d))
      else (Ok (mkResult 0 0), d)
  end.

(** [db.Exec("DELETE FROM items WHERE id = ?", id)].  The AUTOINCREMENT
    sequence keeps the rowids of deleted rows. *)
Definition execDelete (h : Health) (id : Z) (d : DB) : result Result * DB :=
  match h with
  | Failing => (Err ErrIO, d)
  | Healthy =>
      (Ok (mkResult 0 (Z.of_nat (List.length (filter (hasID id) (items d))))),
       mkDB (filter (fun r => negb (hasID id r)) (items d))
            (sqlite_sequence d))
  end.

(** [db.Query("SELECT id, name FROM items")]: the rows in rowid order. *)
Definition querySelectAll (h : Health) (d : DB) : result (list Item) :=
  match h with
  | Failing => Err ErrIO
  | Healthy => Ok (items d)
  end.

(** [db.QueryRow("SELECT id, name FROM items WHERE id = ?", id)] followed by
    [row.Scan(&item.ID, &item.Name)]. *)
Definition queryRowByID (h : Health) (id : Z) (d : DB) : result Item :=
  match h with
  | Failing => Err ErrIO
  | Healthy =>
      match find (hasID id) (items d) with
      | Some r => Ok r
      | None => Err ErrNoRows
      end
  end.

(** [rows.Scan(&item.ID, &item.Name)] on a row of [items]. *)
Definition Scan (row : Item) : result Item := Ok row.

(** [rows.Err()] after the loop: the rows of a query that succeeded are all
    delivered, so it is nil. *)
Definition rowsErr (rows : list Item) : option error := None.

(** The loop [for rows.Next() { ...; items = append(items, item) }]. *)
Fixpoint scanRows (rows : list Item) (acc : slice Item) : result (slice Item) :=
  match rows with
  | [] => Ok acc
  | row :: rest =>
      match Scan row with
      | Err e => Err e
      | Ok item => scanRows rest (append acc item)
      end
  end.

(** ** The handlers *)

(** [getItemsHandler]: GET /items. *)
Definition getItemsHandler (h : Health) (d : DB) : Response * DB :=
  match querySelectAll h d with
  | Err _ => (httpError "Failed to retrieve items" StatusInternalServerError, d)
  | Ok rows =>
      match scanRows rows nilSlice with
      | Err _ => (httpError "Failed to scan item" StatusInternalServerError, d)
      | Ok found =>
          match rowsErr rows with
          | Some _ =>
              (httpError "Error iterating rows" StatusInternalServerError, d)
          | None => (writeJSON StatusOK (marshalItems found), d)
          end
      end
  end.

(** [getItemByIDHandler]: GET /items/{id}. *)
Definition getItemByIDHandler (h : Health) (d : DB) (idStr : string)
  : Response * DB :=
  match Atoi idStr with
  | None => (httpError "Invalid item ID" StatusBadRequest, d)
  | Some id =>
      match queryRowByID h id d with
      | Err ErrNoRows => (httpError "Item not found" StatusNotFound, d)
      | Err _ => (httpError "Failed to retrieve item" StatusInternalServerError, d)
      | Ok item => (writeJSON StatusOK (marshalItem item), d)
      end
  end.

(** [createItemHandler]: POST /items. *)
Definition createItemHandler (h : Health) (d : DB) (body : Body)
  : Response * DB :=
  match Decode body zeroItem with
  | None => (httpError "Invalid request body" StatusBadRequest, d)
  | Some item =>
      let (res, d') := execInsert h (Name item) d in
      match res with
      | Err _ => (httpError "Failed to create item" StatusInternalServerError, d')
      | Ok res =>
          match LastInsertId res with
          | Err _ =>
              (httpError "Failed to get last insert ID" StatusInternalServerError, d')
          | Ok id =>
              (writeJSON StatusCreated (marshalItem (mkItem (toInt id) (Name item))),
               d')
          end
      end
  end.

(** [updateItemHandler]: PUT /items/{id}. *)
Definition updateItemHandler (h : Health) (d : DB) (idStr : string) (body : Body)
  : Response * DB :=
  match Atoi idStr with
  | None => (httpError "Invalid item ID" StatusBadRequest, d)
  | Some id =>
      match Decode body zeroItem with
      | None => (httpError "Invalid request body" StatusBadRequest, d)
      | Some item =>
          let (res, d') := execUpdate h (Name item) id d in
          match res with
          | Err _ => (httpError "Failed to update item" StatusInternalServerError, d')
          | Ok res =>
              match RowsAffected res with
              | Err _ =>
                  (httpError "Failed to get rows affected" StatusInternalServerError,
                   d')
              | Ok n =>
                  if n =? 0 then
                    (httpError "Item not found or no changes made" StatusNotFound, d')
                  else (writeJSON StatusOK (marshalItem (mkItem id (Name item))), d')
              end
          end
      end
  end.

(** [deleteItemHandler]: DELETE /items/{id}. *)
Definition deleteItemHandler (h : Health) (d : DB) (idStr : string)
  : Response * DB :=
  match Atoi idStr with
  | None => (httpError "Invalid item ID" StatusBadRequest, d)
  | Some id =>
      let (res, d') := execDelete h id d in
      match res with
      | Err _ => (httpError "Failed to delete item" StatusInternalServerError, d')
      | Ok res =>
          match RowsAffected res with
          | Err _ =>
              (httpError "Failed to get rows affected" StatusInternalServerError, d')
          | Ok n =>
              if n =? 0 then (httpError "Item not found" StatusNotFound, d')
              else (mkResponse StatusNoContent None Empty, d')
          end
      end
  end.

(** ** The router of [main] *)

(** A request that matches one of the five patterns registered on the mux,
    with the [{id}] path value and the body it carries. *)
Inductive Request : Type :=
| GET_items : Request
| POST_items : Body -> Request
| GET_items_id : string -> Request
| PUT_items_id : string -> Body -> Request
| DELETE_items_id : string -> Request.

Definition mux (h : Health) (d : DB) (r : Request) : Response * DB :=
  match r with
  | GET_items => getItemsHandler h d
  | POST_items body => createItemHandler h d body
  | GET_items_id id => getItemByIDHandler h d id
  | PUT_items_id id body => updateItemHandler h d id body
  | DELETE_items_id id => deleteItemHandler h d id
  end.

(** Serving a sequence of requests one after the other, each with the health
    of the store at that time; the responses come out in order. *)
Fixpoint run (d : DB) (reqs : list (Health * Request)) : list Response * DB :=
  match reqs with
  | [] => ([], d)
  | (h, r) :: rest =>
      let (resp, d1) := mux h d r in
      let (resps, d2) := run d1 rest in
      (resp :: resps, d2)
  end.

(** The states of the store the service can be in: the freshly initialised
    table, and whatever a request leaves behind. *)
Inductive reachable : DB -> Prop :=
| reachable_init : reachable emptyDB
| reachable_step : forall h d r, reachable d -> reachable (snd (mux h d r)).

(** The scenario of the specification: two creates, a listing, an update, a
    delete and a lookup of the deleted id. *)
Definition scenario : list (Health * Request) :=
  [ (Healthy, POST_items (ItemBody None (Some "apple")));
    (Healthy, POST_items (ItemBody None (Some "banana")));
    (Healthy, GET_items);
    (Healthy, PUT_items_id "1" (ItemBody None (Some "avocado")));
    (Healthy, DELETE_items_id "2");
    (Healthy, GET_items_id "2") ].


(** ** What the properties of the service are stated with *)

(** PRIMARY KEY and UNIQUE: no two rows share an id, no two rows share a
    name. *)
Definition storage_inv (d : DB) : Prop :=
  NoDup (map ID (items d)) /\ NoDup (map Name (items d)).

(** No row holds the empty string as its name. *)
Definition names_nonempty (d : DB) : Prop :=
  Forall (fun r => Name r <> "") (items d).

(** A path value that [strconv.Atoi] rejects. *)
Definition badPath (idStr : string) : bool :=
  match Atoi idStr with
  | None => true
  | Some _ => false
  end.

(** A body that [Decode] rejects. *)
Definition badBody (b : Body) : bool :=
  match Decode b zeroItem with
  | None => true
  | Some _ => false
  end.

(** The requests that fail validation: a malformed path id, or a malformed
    body where the handler reads one. *)
Definition invalidRequest (r : Request) : bool :=
  match r with
  | GET_items => false
  | POST_items body => badBody body
  | GET_items_id idStr => badPath idStr
  | PUT_items_id idStr body => badPath idStr || badBody body
  | DELETE_items_id idStr => badPath idStr
  end.

(** The requests the specification takes to fail validation: a malformed
    path id, or a body that is not a JSON text where the handler reads
    one. *)
Definition malformedRequest (r : Request) : bool :=
  match r with
  | GET_items => false
  | POST_items body => negb (validJSON body)
  | GET_items_id idStr => badPath idStr
  | PUT_items_id idStr body => badPath idStr || negb (validJSON body)
  | DELETE_items_id idStr => badPath idStr
  end.

(** A request that updates or deletes the row with id [i]. *)
Definition touches (i : Z) (r : Request) : bool :=
  match r with
  | PUT_items_id idStr _ | DELETE_items_id idStr =>
      match Atoi idStr with
      | Some j => j =? i
      | None => false
      end
  | _ => false
  end.

(** The two read routes. *)
Definition isRead (r : Request) : bool :=
  match r with
  | GET_items | GET_items_id _ => true
  | _ => false
  end.

(** The id a JSON response carries in its first field. *)
Definition responseID (resp : Response) : option Z :=
  match payload resp with
  | Json (JObject ((_, JNumber i) :: _)) => Some i
  | _ => None
  end.

(** The id a request created: the one in the body of a 201 answer to
    POST /items. *)
Definition createdID (r : Request) (resp : Response) : option Z :=
  match r with
  | POST_items _ =>
      if status resp =? StatusCreated then responseID resp else None
  | _ => None
  end.

(** The ids created along a sequence of requests, in the order of their
    creation. *)
Fixpoint createdIDs (reqs : list (Health * Request)) (resps : list Response)
  : list Z :=
  match reqs, resps with
  | (_, r) :: reqs', resp :: resps' =>
      match createdID r resp with
      | Some i => i :: createdIDs reqs' resps'
      | None => createdIDs reqs' resps'
      end
  | _, _ => []
  end.

(** How one request may change the id column of the table: a create that
    assigned [i] appends it, a delete removes the path id, and nothing else
    changes the column. *)
Definition idColumnStep (r : Request) (created : option Z)
                        (before after : list Z) : Prop :=
  match r, created with
  | POST_items _, Some i => after = (before ++ [i])%list
  | DELETE_items_id idStr, _ =>
      after = before \/
      exists i, Atoi idStr = Some i /\
                after = filter (fun j => negb (j =? i)) before
  | _, _ => after = before
  end.

(** The state in which the empty name was stored. *)
Definition emptyNameDB : DB := mkDB [mkItem 1 ""] 1.

(** ** What the further properties are stated with *)

(** The status codes each handler writes. *)
Definition routeStatuses (r : Request) : list Z :=
  match r with
  | GET_items => [StatusOK; StatusInternalServerError]
  | POST_items _ =>
      [StatusCreated; StatusBadRequest; StatusInternalServerError]
  | GET_items_id _ =>
      [StatusOK; StatusBadRequest; StatusNotFound; StatusInternalServerError]
  | PUT_items_id _ _ =>
      [StatusOK; StatusBadRequest; StatusNotFound; StatusInternalServerError]
  | DELETE_items_id _ =>
      [StatusNoContent; StatusBadRequest; StatusNotFound;
       StatusInternalServerError]
  end.

(** AUTOINCREMENT bookkeeping: the sequence is a rowid or 0, and every rowid
    in the table is positive and at most the sequence. *)
Definition seq_inv (d : DB) : Prop :=
  0 <= sqlite_sequence d <= maxRowid /\
  Forall (fun r => 1 <= ID r <= sqlite_sequence d) (items d).

(** The requests of a sequence that are not reads. *)
Definition writes (reqs : list (Health * Request)) : list (Health * Request) :=
  filter (fun hr => negb (isRead (snd hr))) reqs.

(** The path id a request names, when it names one that parses. *)
Definition target (r : Request) : option Z :=
  match r with
  | GET_items_id idStr | PUT_items_id idStr _ | DELETE_items_id idStr =>
      Atoi idStr
  | _ => None
  end.

(** The responses of a sequence that answer its writes. *)
Fixpoint writeResponses (reqs : list (Health * Request)) (resps : list Response)
  : list Response :=
  match reqs, resps with
  | (_, r) :: reqs', resp :: resps' =>
      if isRead r then writeResponses reqs' resps'
      else resp :: writeResponses reqs' resps'
  | _, _ => []
  end.

(** ** Facts about the Go values *)

Lemma toInt_small (z : Z) : minInt <= z <= maxInt -> toInt z = z.
Proof.
  unfold toInt, minInt, maxInt, intSize.
  change (2 ^ (64 - 1)) with 9223372036854775808.
  change (2 ^ 64) with 18446744073709551616.
  intros Hz. rewrite Z.mod_small; lia.
Qed.

Lemma scanRows_app (rows : list Item) :
  forall acc, scanRows rows acc =
    Ok (match rows with
        | [] => acc
        | _ :: _ => Slice (elems acc ++ rows)
        end).
Proof.
  induction rows as [|row rest IH]; intros acc; simpl.
  - reflexivity.
  - rewrite IH. destruct rest as [|row' rest'].
    + destruct acc; reflexivity.
    + destruct acc; simpl; try reflexivity.
      now rewrite <- app_assoc.
Qed.

(** [Atoi] reads back what [Itoa] writes. *)

Lemma parseDigits_uint (u : Decimal.uint) :
  forall acc, parseDigits (NilEmpty.string_of_uint u) acc = Some (uintVal u acc).
Proof.
  induction u; intros acc; simpl; try reflexivity; apply IHu.
Qed.

Lemma uintVal_acc (u : Decimal.uint) :
  forall p, uintVal u (Z.pos p) = Z.pos (Pos.of_uint_acc u p).
Proof.
  induction u; intros p; cbn [uintVal Pos.of_uint_acc]; try reflexivity;
    rewrite <- IHu; f_equal; lia.
Qed.

Lemma uintVal_of_uint (u : Decimal.uint) :
  uintVal u 0 = Z.of_N (Pos.of_uint u).
Proof.
  induction u; cbn [uintVal Pos.of_uint]; try reflexivity; try apply IHu;
    cbn [Z.of_N]; rewrite <- uintVal_acc; reflexivity.
Qed.

Lemma parseDigits_to_uint (p : positive) :
  parseDigits (NilEmpty.string_of_uint (Pos.to_uint p)) 0 = Some (Z.pos p).
Proof.
  rewrite parseDigits_uint, uintVal_of_uint, Unsigned.of_to. reflexivity.
Qed.


Lemma Atoi_unsigned (c : ascii) (rest : string) (n : Z) :
  isDigit c = true ->
  parseDigits (String c rest) 0 = Some n ->
  minInt <= n <= maxInt ->
  Atoi (String c rest) = Some n.
Proof.
  intros Hc Hp Hn. unfold Atoi.
  destruct (Ascii.eqb_spec c "-") as [->|_]; [discriminate Hc|].
  destruct (Ascii.eqb_spec c "+") as [->|_]; [discriminate Hc|].
  cbv beta iota zeta. simpl orb. cbv iota. rewrite Hp.
  destruct (minInt <=? n) eqn:H1; [|apply Z.leb_gt in H1; lia].
  destruct (n <=? maxInt) eqn:H2; [|apply Z.leb_gt in H2; lia].
  reflexivity.
Qed.

Lemma Atoi_negative (c : ascii) (rest : string) (n : Z) :
  parseDigits (String c rest) 0 = Some n ->
  minInt <= - n <= maxInt ->
  Atoi (String "-" (String c rest)) = Some (- n).
Proof.
  intros Hp Hn. unfold Atoi.
  change (Ascii.eqb "-" "-") with true. cbv beta iota zeta. simpl orb. cbv iota.
  rewrite Hp.
  destruct (minInt <=? - n) eqn:H1; [|apply Z.leb_gt in H1; lia].
  destruct (- n <=? maxInt) eqn:H2; [|apply Z.leb_gt in H2; lia].
  reflexivity.
Qed.

Lemma string_of_uint_digit (u : Decimal.uint) :
  u <> Decimal.Nil ->
  exists c rest, NilEmpty.string_of_uint u = String c rest /\ isDigit c = true.
Proof.
  destruct u; [congruence| | | | | | | | | | ]; intros _;
    eexists; eexists; (split; [reflexivity|reflexivity]).
Qed.

Lemma Atoi_Itoa (z : Z) : minInt <= z <= maxInt -> Atoi (Itoa z) = Some z.
Proof.
  intros Hz. unfold Itoa. destruct z as [|p|p]; [reflexivity| |];
    pose proof (parseDigits_to_uint p) as Hp;
    pose proof (Unsigned.to_uint_nonnil p) as Hnil;
    destruct (string_of_uint_digit _ Hnil) as (c & rest & Hs & Hc);
    cbn [Z.to_int NilZero.string_of_int]; unfold NilZero.string_of_uint;
    (destruct (Pos.to_uint p) eqn:Hu; [congruence|..]);
    rewrite Hs in *.
  all: try (apply Atoi_unsigned; assumption).
  all: change (Z.neg p) with (- Z.pos p) in *; apply Atoi_negative; assumption.
Qed.

(** ** Facts about the store *)

Lemma maxID_nonneg (rows : list Item) : 0 <= maxID rows.
Proof. induction rows as [|r rows IH]; simpl; lia. Qed.

Lemma maxID_bound (rows : list Item) (r : Item) :
  In r rows -> ID r <= maxID rows.
Proof.
  induction rows as [|r0 rows IH]; simpl; [tauto|].
  intros [->|Hin]; [lia|]. specialize (IH Hin). lia.
Qed.

Lemma hasID_true (id : Z) (r : Item) : hasID id r = true <-> ID r = id.
Proof. unfold hasID. apply Z.eqb_eq. Qed.

Lemma hasID_false (id : Z) (r : Item) : hasID id r = false <-> ID r <> id.
Proof. unfold hasID. apply Z.eqb_neq. Qed.

Lemma hasName_true (n : string) (r : Item) : hasName n r = true <-> Name r = n.
Proof. unfold hasName. apply String.eqb_eq. Qed.

Lemma existsb_hasID (id : Z) (rows : list Item) :
  existsb (hasID id) rows = true <-> In id (map ID rows).
Proof.
  rewrite existsb_exists, in_map_iff. split.
  - intros (r & Hin & Hr). exists r. now rewrite <- hasID_true.
  - intros (r & Hr & Hin). exists r. now rewrite hasID_true.
Qed.

Lemma existsb_hasName (n : string) (rows : list Item) :
  existsb (hasName n) rows = true <-> In n (map Name rows).
Proof.
  rewrite existsb_exists, in_map_iff. split.
  - intros (r & Hin & Hr). exists r. now rewrite <- hasName_true.
  - intros (r & Hr & Hin). exists r. now rewrite hasName_true.
Qed.

Lemma find_hasID_none (id : Z) (rows : list Item) :
  ~ In id (map ID rows) -> find (hasID id) rows = None.
Proof.
  intros Hno. destruct (find (hasID id) rows) as [r|] eqn:Hf; [|reflexivity].
  apply find_some in Hf. destruct Hf as [Hin Hr].
  exfalso. apply Hno. apply in_map_iff. exists r. now rewrite <- hasID_true.
Qed.

Lemma filter_hasID_none (id : Z) (rows : list Item) :
  ~ In id (map ID rows) -> filter (hasID id) rows = [].
Proof.
  intros Hno. induction rows as [|r rows IH]; simpl in *; [reflexivity|].
  destruct (hasID id r) eqn:Hr.
  - apply hasID_true in Hr. tauto.
  - apply IH. tauto.
Qed.

Lemma filter_not_hasID_none (id : Z) (rows : list Item) :
  ~ In id (map ID rows) -> filter (fun r => negb (hasID id r)) rows = rows.
Proof.
  intros Hno. induction rows as [|r rows IH]; simpl in *; [reflexivity|].
  destruct (hasID id r) eqn:Hr; simpl.
  - apply hasID_true in Hr. tauto.
  - f_equal. apply IH. tauto.
Qed.

(** A statement that fails leaves the store as it was. *)
Lemma execInsert_err h name d e d' :
  execInsert h name d = (Err e, d') -> d' = d.
Proof.
  unfold execInsert. destruct h; [|congruence].
  destruct (maxRowid <=? _); [congruence|].
  destruct (existsb _ _); congruence.
Qed.

(** What a successful INSERT returns and leaves behind. *)
Lemma execInsert_ok h name d res d' :
  execInsert h name d = (Ok res, d') ->
  let id := Z.max (maxID (items d)) (sqlite_sequence d) + 1 in
  h = Healthy /\ 1 <= id <= maxRowid /\
  ~ In name (map Name (items d)) /\
  res = mkResult id 1 /\
  d' = mkDB (items d ++ [mkItem id name]) id.
Proof.
  unfold execInsert. destruct h; [|congruence].
  destruct (maxRowid <=? _) eqn:Hfull; [congruence|].
  destruct (existsb _ _) eqn:Hdup; [congruence|].
  intros Heq. injection Heq as <- <-. apply Z.leb_gt in Hfull.
  pose proof (maxID_nonneg (items d)).
  repeat split; try lia.
  rewrite <- existsb_hasName. congruence.
Qed.

(** When an INSERT goes through. *)
Lemma execInsert_fresh name d :
  ~ In name (map Name (items d)) ->
  Z.max (maxID (items d)) (sqlite_sequence d) < maxRowid ->
  let id := Z.max (maxID (items d)) (sqlite_sequence d) + 1 in
  execInsert Healthy name d =
    (Ok (mkResult id 1), mkDB (items d ++ [mkItem id name]) id).
Proof.
  intros Hfresh Hroom. unfold execInsert.
  destruct (maxRowid <=? _) eqn:Hfull; [apply Z.leb_le in Hfull; lia|].
  destruct (existsb _ _) eqn:Hdup; [|reflexivity].
  apply existsb_hasName in Hdup. contradiction.
Qed.

Lemma execUpdate_err h name id d e d' :
  execUpdate h name id d = (Err e, d') -> d' = d.
Proof.
  unfold execUpdate. destruct h; [|congruence].
  destruct (existsb (hasID id) _); [|congruence].
  destruct (existsb _ _); congruence.
Qed.

Lemma execUpdate_missing name id d :
  ~ In id (map ID (items d)) ->
  execUpdate Healthy name id d = (Ok (mkResult 0 0), d).
Proof.
  intros Hno. unfold execUpdate.
  destruct (existsb (hasID id) _) eqn:Hex; [|reflexivity].
  apply existsb_hasID in Hex. contradiction.
Qed.

(** What an UPDATE that affects a row returns and leaves behind. *)
Lemma execUpdate_ok h name id d res d' :
  execUpdate h name id d = (Ok res, d') ->
  rowsAffected res <> 0 ->
  h = Healthy /\ In id (map ID (items d)) /\
  (forall r, In r (items d) -> ID r <> id -> Name r <> name) /\
  d' = mkDB (map (renamed id name) (items d)) (sqlite_sequence d).
Proof.
  unfold execUpdate. destruct h; [|congruence].
  destruct (existsb (hasID id) _) eqn:Hex.
  - destruct (existsb (fun r => _) _) eqn:Hdup; [congruence|].
    intros Heq _. injection Heq as <- <-.
    repeat split; [now apply existsb_hasID|].
    intros r Hin Hid Hname.
    assert (existsb (fun r => negb (hasID id r) && hasName name r) (items d) = true)
      as Habs; [|congruence].
    apply existsb_exists. exists r. split; [assumption|].
    apply andb_true_iff. split.
    + apply negb_true_iff. now apply hasID_false.
    + now apply hasName_true.
  - intros Heq Hn. injection Heq as <- <-. simpl in Hn. congruence.
Qed.

Lemma execDelete_err h id d e d' :
  execDelete h id d = (Err e, d') -> d' = d.
Proof. unfold execDelete. destruct h; congruence. Qed.

Lemma execDelete_missing id d :
  ~ In id (map ID (items d)) ->
  execDelete Healthy id d = (Ok (mkResult 0 0), d).
Proof.
  intros Hno. unfold execDelete.
  rewrite filter_hasID_none, filter_not_hasID_none by assumption.
  destruct d; reflexivity.
Qed.

Lemma execDelete_ok h id d res d' :
  execDelete h id d = (Ok res, d') ->
  h = Healthy /\
  d' = mkDB (filter (fun r => negb (hasID id r)) (items d)) (sqlite_sequence d).
Proof.
  unfold execDelete. destruct h; [|congruence].
  intros Heq. injection Heq as <- <-. split; reflexivity.
Qed.

(** ** The read routes *)

Lemma getItemsHandler_state h d : snd (getItemsHandler h d) = d.
Proof.
  unfold getItemsHandler. destruct (querySelectAll h d) as [rows|e]; [|reflexivity].
  rewrite scanRows_app. reflexivity.
Qed.

Lemma getItemByIDHandler_state h d idStr : snd (getItemByIDHandler h d idStr) = d.
Proof.
  unfold getItemByIDHandler. destruct (Atoi idStr) as [id|]; [|reflexivity].
  destruct (queryRowByID h id d) as [item|[]]; reflexivity.
Qed.

(** C10. GET /items and GET /items/{id} never change the store: whatever the
    state of the table, the path value and the health of the store, and so
    whatever the status of the response, the store after the request is the
    store before it. *)
Theorem reads_do_not_mutate :
  forall (h : Health) (d : DB) (r : Request),
    isRead r = true -> snd (mux h d r) = d.
Proof.
  intros h d [| body | idStr | idStr body | idStr] Hr; try discriminate Hr; simpl.
  - apply getItemsHandler_state.
  - apply getItemByIDHandler_state.
Qed.

Lemma reads_do_not_mutate_witness :
  isRead (GET_items_id "7") = true /\
  snd (mux Failing (mkDB [mkItem 7 "pear"] 9) (GET_items_id "7"))
    = mkDB [mkItem 7 "pear"] 9.
Proof.
  split; [reflexivity|].
  apply (reads_do_not_mutate Failing (mkDB [mkItem 7 "pear"] 9) (GET_items_id "7")).
  reflexivity.
Defined.

(** ** Validation *)

(** C5, as the code has it. A request whose path id does not parse as an
    integer (GET, PUT, DELETE /items/{id}), or whose body the decoder rejects
    (POST /items, PUT /items/{id}): no complete JSON value at its start, or
    a first value that does not fit an Item, is answered 400, and the store
    is left as it was.  What follows the first value of a body is not
    looked at. *)
Theorem invalid_request_400_no_mutation :
  forall (h : Health) (d : DB) (r : Request),
    invalidRequest r = true ->
    status (fst (mux h d r)) = StatusBadRequest /\ snd (mux h d r) = d.
Proof.
  intros h d [| body | idStr | idStr body | idStr]; simpl;
    unfold badPath, badBody, createItemHandler, getItemByIDHandler,
           updateItemHandler, deleteItemHandler.
  - discriminate.
  - destruct (Decode body zeroItem); [discriminate|]. now split.
  - destruct (Atoi idStr); [discriminate|]. now split.
  - destruct (Atoi idStr); [|now split].
    destruct (Decode body zeroItem); [discriminate|]. now split.
  - destruct (Atoi idStr); [discriminate|]. now split.
Qed.

Lemma invalid_request_400_no_mutation_witness :
  invalidRequest (PUT_items_id "abc" (ItemBody None (Some "kiwi"))) = true /\
  status (fst (mux Healthy (mkDB [mkItem 1 "apple"] 1)
                   (PUT_items_id "abc" (ItemBody None (Some "kiwi")))))
    = StatusBadRequest /\
  snd (mux Healthy (mkDB [mkItem 1 "apple"] 1)
           (PUT_items_id "abc" (ItemBody None (Some "kiwi"))))
    = mkDB [mkItem 1 "apple"] 1.
Proof.
  split; [reflexivity|].
  apply (invalid_request_400_no_mutation Healthy (mkDB [mkItem 1 "apple"] 1)
           (PUT_items_id "abc" (ItemBody None (Some "kiwi")))).
  reflexivity.
Defined.


(** C5, as the spec has it, fails for bodies: the decoder reads the first
    JSON value and stops, so a body that is an object followed by other
    bytes is not a JSON text and yet POST /items with it is answered 201 and
    a row is stored. *)
Lemma trailing_bytes_are_not_checked :
  validJSON (FirstValue (JObject [("name", JString "a")]) "xyz") = false /\
  malformedRequest
    (POST_items (FirstValue (JObject [("name", JString "a")]) "xyz")) = true /\
  mux Healthy emptyDB
      (POST_items (FirstValue (JObject [("name", JString "a")]) "xyz"))
    = (writeJSON StatusCreated (JObject [("id", JNumber 1); ("name", JString "a")]),
       mkDB [mkItem 1 "a"] 1) /\
  ~ (forall h d r,
       malformedRequest r = true ->
       status (fst (mux h d r)) = StatusBadRequest /\ snd (mux h d r) = d).
Proof.
  split; [reflexivity|]. split; [reflexivity|]. split; [reflexivity|].
  intros Hclaim.
  destruct (Hclaim Healthy emptyDB
              (POST_items (FirstValue (JObject [("name", JString "a")]) "xyz"))
              eq_refl) as [Hst _].
  discriminate Hst.
Qed.

(** ** Listing *)

Lemma getItemsHandler_rows (d : DB) :
  items d <> [] ->
  getItemsHandler Healthy d
    = (writeJSON StatusOK (JArray (map marshalItem (items d))), d).
Proof.
  intros Hne. unfold getItemsHandler. simpl. rewrite scanRows_app.
  destruct (items d); [congruence|reflexivity].
Qed.

(** C2, as the code has it. On the freshly initialised table GET /items
    answers 200, but the document it writes is [null], not the empty array:
    [items] is still the nil slice when no row was appended.  A table with
    rows is written as the array of its rows. *)
Theorem get_items_on_empty_table_writes_null :
  initDB Healthy None = Some emptyDB /\
  getItemsHandler Healthy emptyDB = (writeJSON StatusOK JNull, emptyDB) /\
  JNull <> JArray [] /\
  forall (r : Item) (rows : list Item) (s : Z),
    getItemsHandler Healthy (mkDB (r :: rows) s)
      = (writeJSON StatusOK (JArray (map marshalItem (r :: rows))),
         mkDB (r :: rows) s).
Proof.
  repeat split; [discriminate|].
  intros r rows s. now apply getItemsHandler_rows.
Qed.

(** ** Creating *)

(** C4. When a row with name N is in the table, POST /items with name N is
    answered 500, the same status as any other store error, and the store
    is left as it was. *)
Theorem duplicate_name_create_500 :
  forall (h : Health) (d : DB) (body : Body) (item : Item),
    Decode body zeroItem = Some item ->
    In (Name item) (map Name (items d)) ->
    createItemHandler h d body
      = (httpError "Failed to create item" StatusInternalServerError, d).
Proof.
  intros h d body item Hdec Hin. unfold createItemHandler. rewrite Hdec.
  destruct (execInsert h (Name item) d) as [[res|e] d'] eqn:Hex.
  - apply execInsert_ok in Hex. tauto.
  - apply execInsert_err in Hex. now subst.
Qed.

Lemma duplicate_name_create_500_witness :
  Decode (ItemBody None (Some "apple")) zeroItem = Some (mkItem 0 "apple") /\
  In (Name (mkItem 0 "apple"))
     (map Name (items (mkDB [mkItem 1 "apple"; mkItem 2 "banana"] 2))) /\
  createItemHandler Healthy (mkDB [mkItem 1 "apple"; mkItem 2 "banana"] 2)
                    (ItemBody None (Some "apple"))
    = (httpError "Failed to create item" StatusInternalServerError,
       mkDB [mkItem 1 "apple"; mkItem 2 "banana"] 2).
Proof.
  split; [reflexivity|]. split; [simpl; tauto|].
  apply (duplicate_name_create_500 Healthy
           (mkDB [mkItem 1 "apple"; mkItem 2 "banana"] 2)
           (ItemBody None (Some "apple")) (mkItem 0 "apple")).
  - reflexivity.
  - simpl. tauto.
Defined.

Lemma find_hasID_app_new (rows : list Item) (id : Z) (name : string) :
  maxID rows < id ->
  find (hasID id) (rows ++ [mkItem id name]) = Some (mkItem id name).
Proof.
  intros Hmax. induction rows as [|r rows IH]; simpl in *.
  - unfold hasID. simpl. now rewrite Z.eqb_refl.
  - destruct (hasID id r) eqn:Hr.
    + apply hasID_true in Hr. lia.
    + apply IH. lia.
Qed.

(** What a 201 answer of [createItemHandler] says about the insert. *)
Lemma createItemHandler_created h d body resp d' :
  createItemHandler h d body = (resp, d') ->
  status resp = StatusCreated ->
  exists item,
    Decode body zeroItem = Some item /\
    let id := Z.max (maxID (items d)) (sqlite_sequence d) + 1 in
    1 <= id <= maxRowid /\
    ~ In (Name item) (map Name (items d)) /\
    resp = writeJSON StatusCreated (marshalItem (mkItem id (Name item))) /\
    d' = mkDB (items d ++ [mkItem id (Name item)]) id.
Proof.
  unfold createItemHandler.
  destruct (Decode body zeroItem) as [item|]; [|intros [= <- <-]; discriminate].
  destruct (execInsert h (Name item) d) as [[res|e] d1] eqn:Hex;
    [|intros [= <- <-]; discriminate].
  apply execInsert_ok in Hex. cbv zeta in Hex.
  destruct Hex as (_ & Hid & Hfresh & -> & ->). simpl.
  intros [= <- <-] _. exists item. split; [reflexivity|].
  cbv zeta. repeat split; try assumption; try lia.
  rewrite toInt_small; [reflexivity|].
  unfold minInt, maxInt, intSize, maxRowid in *.
  change (2 ^ (64 - 1)) with (2 ^ 63). lia.
Qed.

(** ** Rows that are not there *)

(** C7. For an integer id with no row in the table, GET, PUT (with a
    well-formed body) and DELETE on /items/{id} are all answered 404 and
    leave the store as it was; GET /items/999999 on the empty table is such
    a case. *)
Theorem missing_id_404 :
  forall (d : DB) (idStr : string) (i : Z),
    Atoi idStr = Some i ->
    ~ In i (map ID (items d)) ->
    getItemByIDHandler Healthy d idStr
      = (httpError "Item not found" StatusNotFound, d) /\
    (forall body, badBody body = false ->
       updateItemHandler Healthy d idStr body
         = (httpError "Item not found or no changes made" StatusNotFound, d)) /\
    deleteItemHandler Healthy d idStr
      = (httpError "Item not found" StatusNotFound, d) /\
    getItemByIDHandler Healthy emptyDB "999999"
      = (httpError "Item not found" StatusNotFound, emptyDB).
Proof.
  intros d idStr i Hs Hno. repeat split.
  - unfold getItemByIDHandler, queryRowByID. rewrite Hs.
    now rewrite find_hasID_none.
  - intros body Hbody. unfold updateItemHandler, badBody in *. rewrite Hs.
    destruct (Decode body zeroItem) as [item|]; [|discriminate].
    now rewrite execUpdate_missing.
  - unfold deleteItemHandler. rewrite Hs.
    now rewrite execDelete_missing.
Qed.

Lemma missing_id_404_witness :
  Atoi "3" = Some 3 /\
  ~ In 3 (map ID (items (mkDB [mkItem 1 "apple"; mkItem 2 "banana"] 3))) /\
  getItemByIDHandler Healthy (mkDB [mkItem 1 "apple"; mkItem 2 "banana"] 3) "3"
    = (httpError "Item not found" StatusNotFound,
       mkDB [mkItem 1 "apple"; mkItem 2 "banana"] 3).
Proof.
  split; [reflexivity|].
  assert (~ In 3 (map ID (items (mkDB [mkItem 1 "apple"; mkItem 2 "banana"] 3))))
    as Hno by (simpl; lia).
  split; [exact Hno|].
  exact (proj1 (missing_id_404 (mkDB [mkItem 1 "apple"; mkItem 2 "banana"] 3)
                  "3" 3 eq_refl Hno)).
Defined.

(** ** Updating *)

Lemma map_ID_renamed (id : Z) (name : string) (rows : list Item) :
  map ID (map (renamed id name) rows) = map ID rows.
Proof.
  rewrite map_map. apply map_ext. intros r. unfold renamed.
  destruct (hasID id r); reflexivity.
Qed.

Lemma renamed_other (id : Z) (name : string) (r : Item) :
  ID r <> id -> renamed id name r = r.
Proof. intros Hr. unfold renamed. apply hasID_false in Hr. now rewrite Hr. Qed.

Lemma renamed_same (id : Z) (name : string) (r : Item) :
  ID r = id -> renamed id name r = mkItem id name.
Proof.
  intros Hr. unfold renamed. pose proof Hr as Hb.
  apply hasID_true in Hb. rewrite Hb. now subst.
Qed.

(** What a 200 answer of [updateItemHandler] says about the update. *)
Lemma updateItemHandler_ok h d idStr body resp d' :
  updateItemHandler h d idStr body = (resp, d') ->
  status resp = StatusOK ->
  exists i item,
    Atoi idStr = Some i /\ Decode body zeroItem = Some item /\
    In i (map ID (items d)) /\
    (forall r, In r (items d) -> ID r <> i -> Name r <> Name item) /\
    resp = writeJSON StatusOK (marshalItem (mkItem i (Name item))) /\
    d' = mkDB (map (renamed i (Name item)) (items d)) (sqlite_sequence d).
Proof.
  unfold updateItemHandler.
  destruct (Atoi idStr) as [i|]; [|intros [= <- <-]; discriminate].
  destruct (Decode body zeroItem) as [item|]; [|intros [= <- <-]; discriminate].
  destruct (execUpdate h (Name item) i d) as [[res|e] d1] eqn:Hex;
    [|intros [= <- <-]; discriminate].
  simpl. destruct (rowsAffected res =? 0) eqn:Hn; [intros [= <- <-]; discriminate|].
  apply Z.eqb_neq in Hn. apply execUpdate_ok in Hex; [|assumption].
  destruct Hex as (_ & Hin & Huniq & ->).
  intros [= <- <-] _. exists i, item. repeat split; assumption.
Qed.

(** C6. A PUT /items/{id} that is answered 200 changes nothing but the name
    of the rows with that id, whatever the body is: the body then decodes to
    an item, the id column and the AUTOINCREMENT sequence are as before,
    every row with another id is where and what it was, the rows with the
    path id hold the name of the body, and the response is the object with
    the path id and that name, whatever id the body carries. *)
Theorem update_changes_only_name :
  forall (h : Health) (d : DB) (idStr : string) (i : Z) (body : Body),
    Atoi idStr = Some i ->
    let out := updateItemHandler h d idStr body in
    status (fst out) = StatusOK ->
    exists item,
      Decode body zeroItem = Some item /\
      fst out = writeJSON StatusOK
                  (JObject [("id", JNumber i); ("name", JString (Name item))]) /\
      In i (map ID (items d)) /\
      map ID (items (snd out)) = map ID (items d) /\
      sqlite_sequence (snd out) = sqlite_sequence d /\
      (forall k r, nth_error (items d) k = Some r -> ID r <> i ->
         nth_error (items (snd out)) k = Some r) /\
      (forall k r, nth_error (items d) k = Some r -> ID r = i ->
         nth_error (items (snd out)) k = Some (mkItem i (Name item))).
Proof.
  intros h d idStr i body Hs out Hst.
  destruct out as [resp d'] eqn:Hout. simpl in Hst.
  destruct (updateItemHandler_ok _ _ _ _ _ _ Hout Hst)
    as (i' & item & Hs' & Hdec & Hin & _ & -> & ->).
  assert (i' = i) as -> by congruence.
  exists item. cbn [fst snd items sqlite_sequence]. repeat split.
  - assumption.
  - assumption.
  - apply map_ID_renamed.
  - intros k r Hk Hr. rewrite nth_error_map, Hk. simpl.
    now rewrite renamed_other.
  - intros k r Hk Hr. rewrite nth_error_map, Hk. simpl.
    now rewrite renamed_same.
Qed.

Lemma update_changes_only_name_witness :
  Atoi "1" = Some 1 /\
  status (fst (updateItemHandler Healthy
                 (mkDB [mkItem 1 "apple"; mkItem 2 "banana"] 2)
                 "1" (ItemBody (Some 42) (Some "avocado")))) = StatusOK /\
  exists item,
    Decode (ItemBody (Some 42) (Some "avocado")) zeroItem = Some item /\
    fst (updateItemHandler Healthy (mkDB [mkItem 1 "apple"; mkItem 2 "banana"] 2)
           "1" (ItemBody (Some 42) (Some "avocado")))
      = writeJSON StatusOK
          (JObject [("id", JNumber 1); ("name", JString (Name item))]).
Proof.
  split; [reflexivity|]. split; [reflexivity|].
  destruct (update_changes_only_name Healthy
              (mkDB [mkItem 1 "apple"; mkItem 2 "banana"] 2) "1" 1
              (ItemBody (Some 42) (Some "avocado")) eq_refl eq_refl)
    as (item & Hdec & Hresp & _).
  exists item. split; [exact Hdec|exact Hresp].
Defined.

(** ** Deleting *)

(** C8. A DELETE /items/{id} that is answered 204 has an empty body and
    removes the rows with that id and no other: a row is in the table
    afterwards exactly when it was there before under another id, in the
    same order; a GET /items/{id} that follows is answered 404. *)
Theorem delete_then_get_404 :
  forall (h : Health) (d : DB) (idStr : string),
    let out := deleteItemHandler h d idStr in
    status (fst out) = StatusNoContent ->
    payload (fst out) = Empty /\
    exists i,
      Atoi idStr = Some i /\
      In i (map ID (items d)) /\
      ~ In i (map ID (items (snd out))) /\
      (forall r, In r (items (snd out)) <-> In r (items d) /\ ID r <> i) /\
      items (snd out) = filter (fun r => negb (ID r =? i)) (items d) /\
      sqlite_sequence (snd out) = sqlite_sequence d /\
      getItemByIDHandler Healthy (snd out) idStr
        = (httpError "Item not found" StatusNotFound, snd out).
Proof.
  intros h d idStr out. subst out. unfold deleteItemHandler.
  destruct (Atoi idStr) as [i|] eqn:Hs; [|discriminate].
  destruct (execDelete h i d) as [[res|e] d1] eqn:Hex; [|discriminate].
  unfold execDelete in Hex. destruct h; [|discriminate].
  injection Hex as <- <-. unfold RowsAffected. cbn [rowsAffected].
  destruct (Z.of_nat (List.length (filter (hasID i) (items d))) =? 0) eqn:Hn;
    [discriminate|].
  intros _. cbn [fst snd payload items sqlite_sequence].
  split; [reflexivity|]. exists i.
  assert (forall r, In r (filter (fun r => negb (hasID i r)) (items d))
                    <-> In r (items d) /\ ID r <> i) as Hfilter.
  { intros r. rewrite filter_In, negb_true_iff, hasID_false. tauto. }
  assert (~ In i (map ID (filter (fun r => negb (hasID i r)) (items d)))) as Hgone.
  { rewrite in_map_iff. intros (r & Hr & Hin). apply Hfilter in Hin. tauto. }
  split; [reflexivity|]. split.
  { destruct (existsb (hasID i) (items d)) eqn:Hex.
    - now apply existsb_hasID.
    - exfalso. apply Z.eqb_neq in Hn. apply Hn.
      rewrite filter_hasID_none; [reflexivity|].
      rewrite <- existsb_hasID. congruence. }
  split; [exact Hgone|]. split; [exact Hfilter|].
  split; [reflexivity|]. split; [reflexivity|].
  unfold getItemByIDHandler, queryRowByID. rewrite Hs. cbn [items].
  now rewrite find_hasID_none.
Qed.

Lemma delete_then_get_404_witness :
  status (fst (deleteItemHandler Healthy
                 (mkDB [mkItem 1 "avocado"; mkItem 2 "banana"] 2) "2"))
    = StatusNoContent /\
  payload (fst (deleteItemHandler Healthy
                  (mkDB [mkItem 1 "avocado"; mkItem 2 "banana"] 2) "2"))
    = Empty.
Proof.
  split; [reflexivity|].
  exact (proj1 (delete_then_get_404 Healthy
                  (mkDB [mkItem 1 "avocado"; mkItem 2 "banana"] 2) "2" eq_refl)).
Defined.

(** ** What a request can do to the store *)

Lemma createItemHandler_state h d body :
  let out := createItemHandler h d body in
  (status (fst out) <> StatusCreated /\ snd out = d) \/
  (exists name,
     let id := Z.max (maxID (items d)) (sqlite_sequence d) + 1 in
     ~ In name (map Name (items d)) /\
     fst out = writeJSON StatusCreated (marshalItem (mkItem id name)) /\
     snd out = mkDB (items d ++ [mkItem id name]) id).
Proof.
  intros out. destruct out as [resp d'] eqn:Hout. subst out.
  destruct (Z.eq_dec (status resp) StatusCreated) as [Hst|Hst].
  - right. destruct (createItemHandler_created _ _ _ _ _ Hout Hst)
      as (item & _ & _ & Hfresh & -> & ->).
    exists (Name item). cbv zeta. now repeat split.
  - left. split; [assumption|]. revert Hout. unfold createItemHandler.
    destruct (Decode body zeroItem) as [item|]; [|now intros [= <- <-]].
    destruct (execInsert h (Name item) d) as [[res|e] d1] eqn:Hex.
    + simpl. intros [= <- <-]. now contradiction Hst.
    + apply execInsert_err in Hex. now intros [= <- <-].
Qed.

Lemma updateItemHandler_state h d idStr body :
  let out := updateItemHandler h d idStr body in
  snd out = d \/
  (exists i name,
     In i (map ID (items d)) /\
     (forall r, In r (items d) -> ID r <> i -> Name r <> name) /\
     snd out = mkDB (map (renamed i name) (items d)) (sqlite_sequence d)).
Proof.
  intros out. destruct out as [resp d'] eqn:Hout. subst out.
  destruct (Z.eq_dec (status resp) StatusOK) as [Hst|Hst].
  - right. destruct (updateItemHandler_ok _ _ _ _ _ _ Hout Hst)
      as (i & item & _ & _ & Hin & Huniq & _ & ->).
    exists i, (Name item). now repeat split.
  - left. revert Hout. unfold updateItemHandler.
    destruct (Atoi idStr) as [i|]; [|now intros [= <- <-]].
    destruct (Decode body zeroItem) as [item|]; [|now intros [= <- <-]].
    destruct (execUpdate h (Name item) i d) as [[res|e] d1] eqn:Hex.
    + simpl. destruct (rowsAffected res =? 0) eqn:Hn.
      * intros [= <- <-]. simpl. revert Hex. unfold execUpdate.
        destruct h; [|congruence].
        destruct (existsb (hasID i) _); [|congruence].
        destruct (existsb _ _); [congruence|].
        intros [= <- <-]. simpl in Hn. apply Z.eqb_eq in Hn.
        destruct (filter (hasID i) (items d)) as [|r0 l] eqn:Hf;
          [|simpl in Hn; lia].
        f_equal. destruct d as [rows s]. simpl in *. f_equal.
        rewrite <- (map_id rows) at 2. apply map_ext_in. intros r Hin.
        apply renamed_other. intros Hr.
        assert (In r (filter (hasID i) rows)) as Habs
          by (apply filter_In; split; [assumption|now apply hasID_true]).
        rewrite Hf in Habs. contradiction.
      * intros [= <- <-]. now contradiction Hst.
    + apply execUpdate_err in Hex. now intros [= <- <-].
Qed.

Lemma deleteItemHandler_state h d idStr :
  let out := deleteItemHandler h d idStr in
  snd out = d \/
  (exists i, Atoi idStr = Some i /\
     snd out = mkDB (filter (fun r => negb (hasID i r)) (items d))
                    (sqlite_sequence d)).
Proof.
  cbv zeta. unfold deleteItemHandler.
  destruct (Atoi idStr) as [i|]; [|now left].
  destruct (execDelete h i d) as [[res|e] d1] eqn:Hex.
  - apply execDelete_ok in Hex. destruct Hex as [_ ->].
    right. exists i. split; [reflexivity|].
    simpl. now destruct (rowsAffected res =? 0).
  - apply execDelete_err in Hex. subst. now left.
Qed.

(** ** The storage invariant *)

Lemma NoDup_snoc {A : Type} (l : list A) (x : A) :
  NoDup l -> ~ In x l -> NoDup (l ++ [x]).
Proof.
  intros Hl Hx. induction Hl as [|y l Hy Hl IH]; simpl.
  - constructor; [tauto|constructor].
  - constructor.
    + rewrite in_app_iff. simpl. intros [H|[H|[]]]; [tauto|].
      subst. apply Hx. now left.
    + apply IH. intros H. apply Hx. now right.
Qed.

(** Deleting rows keeps a column free of duplicates. *)
Lemma delete_keeps_NoDup {B : Type} (col : Item -> B) (id : Z) (rows : list Item) :
  NoDup (map col rows) ->
  NoDup (map col (filter (fun r => negb (hasID id r)) rows)).
Proof.
  intros Hnd. induction rows as [|r rows IH]; simpl in *; [constructor|].
  apply NoDup_cons_iff in Hnd. destruct Hnd as [Hr Hrows].
  destruct (hasID id r); simpl; [now apply IH|].
  apply NoDup_cons_iff. split; [|now apply IH].
  intros Hin. apply Hr. apply in_map_iff in Hin.
  destruct Hin as (r' & Heq & Hin'). apply filter_In in Hin'.
  apply in_map_iff. exists r'. tauto.
Qed.

Lemma NoDup_names_renamed (i : Z) (name : string) (rows : list Item) :
  NoDup (map ID rows) -> NoDup (map Name rows) ->
  (forall r, In r rows -> ID r <> i -> Name r <> name) ->
  NoDup (map Name (map (renamed i name) rows)).
Proof.
  induction rows as [|r rows IH]; simpl; intros Hids Hnames Huniq; [constructor|].
  inversion Hids as [|x l Hid Hids']; subst.
  inversion Hnames as [|x l Hname Hnames']; subst.
  constructor.
  - rewrite in_map_iff. intros (r' & Hr' & Hin).
    apply in_map_iff in Hin. destruct Hin as (r0 & <- & Hin0).
    destruct (Z.eq_dec (ID r0) i) as [H0|H0];
      destruct (Z.eq_dec (ID r) i) as [H1|H1].
    + apply Hid. apply in_map_iff. exists r0. split; [congruence|assumption].
    + rewrite (renamed_same _ _ _ H0), (renamed_other _ _ _ H1) in Hr'.
      simpl in Hr'. apply (Huniq r); [now left|assumption|congruence].
    + rewrite (renamed_other _ _ _ H0), (renamed_same _ _ _ H1) in Hr'.
      simpl in Hr'. apply (Huniq r0); [now right|assumption|congruence].
    + rewrite (renamed_other _ _ _ H0), (renamed_other _ _ _ H1) in Hr'.
      apply Hname. apply in_map_iff. exists r0. now split.
  - apply IH; auto.
Qed.

Lemma storage_inv_mux h d r : storage_inv d -> storage_inv (snd (mux h d r)).
Proof.
  intros [Hids Hnames]. destruct r as [| body | idStr | idStr body | idStr]; simpl.
  - rewrite getItemsHandler_state. now split.
  - destruct (createItemHandler_state h d body) as [[_ ->]|(name & Hfresh & _ & ->)];
      [now split|].
    split; simpl; rewrite map_app; simpl; apply NoDup_snoc; try assumption.
    intros Hin. apply in_map_iff in Hin. destruct Hin as (r & Hr & Hin).
    apply maxID_bound in Hin. lia.
  - rewrite getItemByIDHandler_state. now split.
  - destruct (updateItemHandler_state h d idStr body)
      as [->|(i & name & _ & Huniq & ->)]; [now split|].
    split; simpl.
    + now rewrite map_ID_renamed.
    + now apply NoDup_names_renamed.
  - destruct (deleteItemHandler_state h d idStr) as [->|(i & _ & ->)];
      [now split|].
    split; simpl; now apply delete_keeps_NoDup.
Qed.

Lemma storage_inv_reachable d : reachable d -> storage_inv d.
Proof.
  induction 1 as [|h d r _ IH].
  - split; constructor.
  - now apply storage_inv_mux.
Qed.

(** C3, as the code has it. In every state the service can reach, no two
    rows share an id and no two rows share a name (a name is a Go string, so
    it is never NULL, but it may be the empty string); and every request,
    whether it creates, updates, deletes or reads, and whether it succeeds
    or fails, takes a table with these two properties to a table with
    them. *)
Theorem storage_invariant :
  forall d : DB,
    (reachable d -> storage_inv d) /\
    (storage_inv d -> forall h r, storage_inv (snd (mux h d r))).
Proof.
  intros d. split.
  - apply storage_inv_reachable.
  - intros Hinv h r. now apply storage_inv_mux.
Qed.

Lemma storage_invariant_witness :
  storage_inv emptyDB /\
  storage_inv (snd (mux Healthy emptyDB (POST_items (ItemBody None (Some "apple"))))).
Proof.
  destruct (storage_invariant emptyDB) as [Hreach Hstep].
  assert (storage_inv emptyDB) as H0 by (apply Hreach; constructor).
  split; [exact H0|]. apply Hstep. exact H0.
Defined.

(** C3, as the spec has it, fails: POST /items with the body {"name": ""}
    on the fresh table is answered 201 and stores a row whose name is the
    empty string. *)
Lemma empty_name_is_stored :
  mux Healthy emptyDB (POST_items (ItemBody None (Some "")))
    = (writeJSON StatusCreated (JObject [("id", JNumber 1); ("name", JString "")]),
       emptyNameDB) /\
  reachable emptyNameDB /\
  ~ (storage_inv emptyNameDB /\ names_nonempty emptyNameDB).
Proof.
  split; [reflexivity|]. split.
  - exact (reachable_step Healthy emptyDB (POST_items (ItemBody None (Some "")))
             reachable_init).
  - intros [_ Hne]. inversion Hne as [|r l Hr _]; subst. now apply Hr.
Qed.

(** ** Id assignment *)

(** A request that created an id appended it to the table, above the
    AUTOINCREMENT sequence, which it then set to that id. *)
Lemma mux_created h d r i :
  createdID r (fst (mux h d r)) = Some i ->
  sqlite_sequence d < i /\
  (forall r0, In r0 (items d) -> ID r0 < i) /\
  sqlite_sequence (snd (mux h d r)) = i /\
  map ID (items (snd (mux h d r))) = (map ID (items d) ++ [i])%list.
Proof.
  destruct r as [| body | idStr | idStr body | idStr]; try discriminate.
  simpl. destruct (status _ =? StatusCreated) eqn:Hst; [|discriminate].
  apply Z.eqb_eq in Hst.
  destruct (createItemHandler_state h d body) as [[Hno _]|(name & _ & -> & ->)];
    [contradiction|].
  simpl. intros [= <-]. repeat split; try lia.
  - intros r0 Hin. apply maxID_bound in Hin. lia.
  - rewrite map_app. reflexivity.
Qed.

(** A request that created no id left the id column as it was, up to the
    rows a delete removed, and the AUTOINCREMENT sequence where it was. *)
Lemma mux_not_created h d r :
  createdID r (fst (mux h d r)) = None ->
  sqlite_sequence (snd (mux h d r)) = sqlite_sequence d /\
  idColumnStep r None (map ID (items d)) (map ID (items (snd (mux h d r)))).
Proof.
  destruct r as [| body | idStr | idStr body | idStr]; simpl.
  - intros _. now rewrite getItemsHandler_state.
  - destruct (createItemHandler_state h d body)
      as [[_ ->]|(name & _ & Hresp & Hd)]; [now split|].
    rewrite Hresp. discriminate.
  - intros _. now rewrite getItemByIDHandler_state.
  - intros _. destruct (updateItemHandler_state h d idStr body)
      as [->|(i & name & _ & _ & ->)]; [now split|].
    simpl. now rewrite map_ID_renamed.
  - intros _. destruct (deleteItemHandler_state h d idStr) as [->|(i & Hs & ->)];
      [split; [reflexivity|now left]|].
    simpl. split; [reflexivity|]. right. exists i. split; [assumption|].
    induction (items d) as [|r rows IH]; simpl; [reflexivity|].
    unfold hasID at 1. destruct (ID r =? i); simpl; congruence.
Qed.

Lemma mux_idColumnStep h d r :
  idColumnStep r (createdID r (fst (mux h d r)))
               (map ID (items d)) (map ID (items (snd (mux h d r)))).
Proof.
  destruct (createdID r (fst (mux h d r))) as [i|] eqn:Hc.
  - pose proof (mux_created _ _ _ _ Hc) as (_ & _ & _ & Hids).
    destruct r; try discriminate. exact Hids.
  - now apply mux_not_created.
Qed.

Lemma run_cons d h r rest :
  run d ((h, r) :: rest)
    = (fst (mux h d r) :: fst (run (snd (mux h d r)) rest),
       snd (run (snd (mux h d r)) rest)).
Proof.
  simpl. destruct (mux h d r) as [resp d1]. simpl.
  destruct (run d1 rest) as [resps d2]. reflexivity.
Qed.

Lemma run_reachable trace : forall d, reachable d -> reachable (snd (run d trace)).
Proof.
  induction trace as [|[h r] rest IH]; intros d Hd; [exact Hd|].
  rewrite run_cons. simpl. apply IH. now constructor.
Qed.

(** Along any sequence of requests the created ids increase strictly, lie
    above the sequence the run started from and at or below the one it
    ends with. *)
Lemma createdIDs_sorted trace :
  forall d,
    let created := createdIDs trace (fst (run d trace)) in
    StronglySorted Z.lt created /\
    Forall (fun i => sqlite_sequence d < i) created /\
    Forall (fun i => i <= sqlite_sequence (snd (run d trace))) created /\
    sqlite_sequence d <= sqlite_sequence (snd (run d trace)).
Proof.
  induction trace as [|[h r] rest IH]; intros d; cbv zeta.
  - simpl. repeat split; try constructor. lia.
  - rewrite run_cons. cbn [fst snd createdIDs].
    destruct (IH (snd (mux h d r))) as (Hsorted & Hlow & Hhigh & Hmono).
    destruct (createdID r (fst (mux h d r))) as [i|] eqn:Hc.
    + destruct (mux_created _ _ _ _ Hc) as (Hlt & _ & Hseq & _).
      rewrite Hseq in *. repeat split.
      * constructor; assumption.
      * constructor; [assumption|].
        eapply Forall_impl; [|exact Hlow]. simpl. intros; lia.
      * constructor; assumption.
      * lia.
    + destruct (mux_not_created _ _ _ Hc) as [Hseq _].
      rewrite Hseq in *. repeat split; assumption.
Qed.

(** Every id in the table was in it at the start or was created on the
    way. *)
Lemma ids_were_created trace :
  forall d j,
    In j (map ID (items (snd (run d trace)))) ->
    In j (map ID (items d)) \/ In j (createdIDs trace (fst (run d trace))).
Proof.
  induction trace as [|[h r] rest IH]; intros d j; [now left|].
  rewrite run_cons. cbn [fst snd createdIDs]. intros Hin.
  apply IH in Hin.
  pose proof (mux_idColumnStep h d r) as Hstep.
  destruct (createdID r (fst (mux h d r))) as [i|] eqn:Hc.
  - destruct Hin as [Hin|Hin]; [|right; now right].
    destruct r; try discriminate. cbn [idColumnStep] in Hstep.
    rewrite Hstep in Hin.
    apply in_app_iff in Hin. destruct Hin as [Hin|[<-|[]]];
      [now left|right; now left].
  - destruct Hin as [Hin|Hin]; [|now right]. left.
    destruct r; cbn [idColumnStep] in Hstep; try (now rewrite Hstep in Hin).
    destruct Hstep as [Hstep|(i & _ & Hstep)]; rewrite Hstep in Hin;
      [assumption|].
    apply filter_In in Hin. tauto.
Qed.

(** C9. Serve any sequence of requests from the freshly initialised store.
    The ids the creates returned increase strictly in the order of their
    creation, so each is greater than every id assigned before it and no id
    is assigned twice; none exceeds the AUTOINCREMENT sequence of the final
    store; the ids in the final table are pairwise distinct and each was
    returned by one of the creates, whatever ids the request bodies carried.
    One more request changes the id column of the table only by appending
    the id it created, greater than the sequence and than every id in the
    table, or by removing the id it deleted: an update leaves the column as
    it is. *)
Theorem id_assignment :
  forall (trace : list (Health * Request)) (h : Health) (r : Request),
    let created := createdIDs trace (fst (run emptyDB trace)) in
    let d := snd (run emptyDB trace) in
    let out := mux h d r in
    StronglySorted Z.lt created /\
    Forall (fun i => i <= sqlite_sequence d) created /\
    NoDup (map ID (items d)) /\
    (forall j, In j (map ID (items d)) -> In j created) /\
    (forall i, createdID r (fst out) = Some i ->
       sqlite_sequence d < i /\ (forall r0, In r0 (items d) -> ID r0 < i)) /\
    idColumnStep r (createdID r (fst out))
                 (map ID (items d)) (map ID (items (snd out))).
Proof.
  intros trace h r created d out.
  destruct (createdIDs_sorted trace emptyDB) as (Hsorted & _ & Hhigh & _).
  repeat split.
  - exact Hsorted.
  - exact Hhigh.
  - apply storage_inv_reachable. apply run_reachable. constructor.
  - intros j Hj. destruct (ids_were_created trace emptyDB j Hj) as [[]|Hc].
    exact Hc.
  - now apply (mux_created h d r i).
  - now apply (mux_created h d r i).
  - apply mux_idColumnStep.
Qed.

Lemma id_assignment_witness :
  createdID (POST_items (ItemBody (Some 1) (Some "cherry")))
    (fst (mux Healthy
            (snd (run emptyDB
                    [ (Healthy, POST_items (ItemBody None (Some "apple")));
                      (Healthy, POST_items (ItemBody None (Some "banana")));
                      (Healthy, DELETE_items_id "2") ]))
            (POST_items (ItemBody (Some 1) (Some "cherry")))))
    = Some 3 /\
  sqlite_sequence
    (snd (run emptyDB
            [ (Healthy, POST_items (ItemBody None (Some "apple")));
              (Healthy, POST_items (ItemBody None (Some "banana")));
              (Healthy, DELETE_items_id "2") ])) < 3.
Proof.
  split; [reflexivity|].
  destruct (id_assignment
              [ (Healthy, POST_items (ItemBody None (Some "apple")));
                (Healthy, POST_items (ItemBody None (Some "banana")));
                (Healthy, DELETE_items_id "2") ]
              Healthy (POST_items (ItemBody (Some 1) (Some "cherry"))))
    as (_ & _ & _ & _ & Hnew & _).
  apply (Hnew 3). reflexivity.
Defined.

(** ** Round trip *)

Lemma hasID_renamed (j i : Z) (name : string) (r : Item) :
  hasID j (renamed i name r) = hasID j r.
Proof. unfold renamed. now destruct (hasID i r). Qed.

Lemma find_hasID_some (i : Z) (rows : list Item) (r : Item) :
  find (hasID i) rows = Some r -> In r rows /\ ID r = i.
Proof.
  intros Hf. apply find_some in Hf. now rewrite hasID_true in Hf.
Qed.

Lemma find_hasID_In (rows : list Item) (r : Item) :
  NoDup (map ID rows) -> In r rows -> find (hasID (ID r)) rows = Some r.
Proof.
  induction rows as [|r0 rows IH]; simpl; [tauto|].
  intros Hnd Hin. apply NoDup_cons_iff in Hnd. destruct Hnd as [Hr0 Hnd].
  destruct Hin as [->|Hin].
  - unfold hasID. now rewrite Z.eqb_refl.
  - destruct (hasID (ID r) r0) eqn:Hr; [|now apply IH].
    apply hasID_true in Hr. exfalso. apply Hr0. rewrite Hr.
    now apply in_map.
Qed.

Lemma find_hasID_map_renamed (j i : Z) (name : string) (rows : list Item) :
  find (hasID j) (map (renamed i name) rows)
    = option_map (renamed i name) (find (hasID j) rows).
Proof.
  induction rows as [|r rows IH]; simpl; [reflexivity|].
  rewrite hasID_renamed. now destruct (hasID j r).
Qed.

Lemma find_hasID_filter_other (j i : Z) (rows : list Item) :
  i <> j ->
  find (hasID j) (filter (fun r => negb (hasID i r)) rows) = find (hasID j) rows.
Proof.
  intros Hij. induction rows as [|r rows IH]; simpl; [reflexivity|].
  destruct (hasID i r) eqn:Hi; simpl.
  - destruct (hasID j r) eqn:Hj; [|exact IH].
    apply hasID_true in Hi, Hj. congruence.
  - now rewrite IH.
Qed.

Lemma find_hasID_app_old (j : Z) (rows : list Item) (new : Item) :
  ID new <> j ->
  find (hasID j) (rows ++ [new]) = find (hasID j) rows.
Proof.
  intros Hnew. induction rows as [|r rows IH]; simpl.
  - apply hasID_false in Hnew. now rewrite Hnew.
  - now rewrite IH.
Qed.

Lemma filter_not_hasID_all (id : Z) (rows : list Item) :
  filter (hasID id) rows = [] ->
  filter (fun r => negb (hasID id r)) rows = rows.
Proof.
  induction rows as [|r rows IH]; simpl; [reflexivity|].
  destruct (hasID id r); simpl; [discriminate|].
  intros Hf. now rewrite IH.
Qed.

Lemma length_zero_nil {A : Type} (l : list A) :
  Z.of_nat (List.length l) = 0 -> l = [].
Proof. destruct l; simpl; [reflexivity|lia]. Qed.

Lemma createItemHandler_not_created h d body :
  status (fst (createItemHandler h d body)) <> StatusCreated ->
  snd (createItemHandler h d body) = d.
Proof.
  destruct (createItemHandler_state h d body) as [[_ Hd]|(name & _ & Hresp & _)].
  - intros _. exact Hd.
  - rewrite Hresp. simpl. tauto.
Qed.

Lemma updateItemHandler_not_ok h d idStr body :
  status (fst (updateItemHandler h d idStr body)) <> StatusOK ->
  snd (updateItemHandler h d idStr body) = d.
Proof.
  unfold updateItemHandler.
  destruct (Atoi idStr) as [i|]; [|reflexivity].
  destruct (Decode body zeroItem) as [item|]; [|reflexivity].
  destruct (execUpdate h (Name item) i d) as [[res|e] d1] eqn:Hex.
  - simpl. destruct (rowsAffected res =? 0) eqn:Hn; [|simpl; tauto].
    intros _. simpl. revert Hex. unfold execUpdate.
    destruct h; [|congruence].
    destruct (existsb (hasID i) (items d)) eqn:Hin; [|congruence].
    destruct (existsb (fun r => _) _); [congruence|].
    intros [= <- _]. simpl in Hn. apply Z.eqb_eq, length_zero_nil in Hn.
    apply existsb_hasID, in_map_iff in Hin. destruct Hin as (r & Hr & Hin).
    assert (In r (filter (hasID i) (items d))) as Habs
      by (apply filter_In; split; [assumption|now apply hasID_true]).
    rewrite Hn in Habs. contradiction.
  - intros _. simpl. now apply execUpdate_err in Hex.
Qed.

Lemma deleteItemHandler_not_deleted h d idStr :
  status (fst (deleteItemHandler h d idStr)) <> StatusNoContent ->
  snd (deleteItemHandler h d idStr) = d.
Proof.
  unfold deleteItemHandler.
  destruct (Atoi idStr) as [i|]; [|reflexivity].
  destruct (execDelete h i d) as [[res|e] d1] eqn:Hex.
  - unfold execDelete in Hex. destruct h; [|discriminate].
    injection Hex as <- <-. unfold RowsAffected. cbn [rowsAffected].
    destruct (Z.of_nat (List.length (filter (hasID i) (items d))) =? 0) eqn:Hn;
      [|simpl; tauto].
    intros _. simpl. apply Z.eqb_eq, length_zero_nil in Hn.
    rewrite filter_not_hasID_all by assumption. now destruct d.
  - intros _. simpl. now apply execDelete_err in Hex.
Qed.

(** A request that neither updates nor deletes row [i] leaves the row the
    lookup of [i] finds. *)
Lemma mux_keeps_row h d r i x :
  find (hasID i) (items d) = Some x ->
  touches i r = false ->
  find (hasID i) (items (snd (mux h d r))) = Some x.
Proof.
  intros Hx Ht. pose proof (find_hasID_some _ _ _ Hx) as [Hin Hid].
  destruct r as [| body | idStr | idStr body | idStr]; simpl in *.
  - now rewrite getItemsHandler_state.
  - destruct (createItemHandler_state h d body)
      as [[_ ->]|(name & _ & _ & ->)]; [assumption|].
    cbn [items]. rewrite find_hasID_app_old; [assumption|].
    simpl. apply maxID_bound in Hin. lia.
  - now rewrite getItemByIDHandler_state.
  - destruct (Z.eq_dec (status (fst (updateItemHandler h d idStr body))) StatusOK)
      as [Hst|Hst].
    + destruct (updateItemHandler h d idStr body) as [resp d'] eqn:Hout.
      destruct (updateItemHandler_ok _ _ _ _ _ _ Hout Hst)
        as (j & item & Hj & _ & _ & _ & _ & ->).
      rewrite Hj in Ht. apply Z.eqb_neq in Ht.
      cbn [snd items]. rewrite find_hasID_map_renamed, Hx. simpl.
      f_equal. apply renamed_other. lia.
    + now rewrite updateItemHandler_not_ok.
  - destruct (deleteItemHandler_state h d idStr) as [->|(j & Hj & ->)];
      [assumption|].
    rewrite Hj in Ht. apply Z.eqb_neq in Ht.
    cbn [items]. rewrite find_hasID_filter_other; [assumption|lia].
Qed.


(** A sequence of requests none of which updates or deletes row [i] leaves
    the row the lookup of [i] finds. *)
Lemma run_keeps_row i x trace :
  forall d,
    find (hasID i) (items d) = Some x ->
    Forall (fun hr => touches i (snd hr) = false) trace ->
    find (hasID i) (items (snd (run d trace))) = Some x.
Proof.
  induction trace as [|[h r] rest IH]; intros d Hx Hall; [exact Hx|].
  rewrite run_cons. cbn [snd]. inversion Hall as [|hr l Hr Hrest]; subst.
  apply IH; [|assumption]. now apply mux_keeps_row.
Qed.

(** C1. A POST /items whose body decodes to the name N, as the body
    {"name": N} does (with or without an id in it), is answered 201 whenever
    the store is healthy, N is not in the table and a rowid is left.  Every
    201 answer carries an id i such that, after any sequence of further
    requests none of which updates or deletes i, GET /items/i (with i
    written in decimal, or in any other form [Atoi] reads as i) is answered
    200 with the object {"id": i, "name": N} and leaves the store as it
    is. *)
Theorem create_then_get_round_trip :
  forall (h : Health) (d : DB) (body : Body) (item : Item),
    Decode body zeroItem = Some item ->
    let N := Name item in
    let out := createItemHandler h d body in
    (h = Healthy ->
     ~ In N (map Name (items d)) ->
     Z.max (maxID (items d)) (sqlite_sequence d) < maxRowid ->
     status (fst out) = StatusCreated) /\
    (status (fst out) = StatusCreated ->
     exists i,
       fst out = writeJSON StatusCreated
                   (JObject [("id", JNumber i); ("name", JString N)]) /\
       Atoi (Itoa i) = Some i /\
       forall (later : list (Health * Request)) (idStr : string),
         Forall (fun hr => touches i (snd hr) = false) later ->
         Atoi idStr = Some i ->
         getItemByIDHandler Healthy (snd (run (snd out) later)) idStr
           = (writeJSON StatusOK
                (JObject [("id", JNumber i); ("name", JString N)]),
              snd (run (snd out) later))).
Proof.
  intros h d body item Hdec N out. split.
  - intros -> Hfresh Hroom. subst out N. unfold createItemHandler.
    rewrite Hdec. rewrite execInsert_fresh by assumption. reflexivity.
  - intros Hst. destruct out as [resp d'] eqn:Hout. simpl in Hst.
    destruct (createItemHandler_created _ _ _ _ _ Hout Hst)
      as (item' & Hdec' & Hid & _ & -> & ->).
    assert (item' = item) as -> by congruence.
    fold N in Hid |- *. cbn [fst snd].
    set (i := Z.max (maxID (items d)) (sqlite_sequence d) + 1) in *.
    exists i. split; [reflexivity|]. split.
    + apply Atoi_Itoa. unfold minInt, maxInt, intSize, maxRowid in *.
      change (2 ^ (64 - 1)) with (2 ^ 63). lia.
    + intros later idStr Hlater Hs. unfold getItemByIDHandler. rewrite Hs.
      unfold queryRowByID.
      rewrite (run_keeps_row i (mkItem i N)); [reflexivity| |assumption].
      cbn [items]. apply find_hasID_app_new. lia.
Qed.

Lemma create_then_get_round_trip_witness :
  Decode (ItemBody None (Some "apple")) zeroItem = Some (mkItem 0 "apple") /\
  status (fst (createItemHandler Healthy emptyDB (ItemBody None (Some "apple"))))
    = StatusCreated /\
  exists i,
    fst (createItemHandler Healthy emptyDB (ItemBody None (Some "apple")))
      = writeJSON StatusCreated
          (JObject [("id", JNumber i); ("name", JString "apple")]) /\
    Atoi (Itoa i) = Some i /\
    forall (later : list (Health * Request)) (idStr : string),
      Forall (fun hr => touches i (snd hr) = false) later ->
      Atoi idStr = Some i ->
      getItemByIDHandler Healthy
        (snd (run (snd (createItemHandler Healthy emptyDB
                          (ItemBody None (Some "apple")))) later)) idStr
      = (writeJSON StatusOK
           (JObject [("id", JNumber i); ("name", JString "apple")]),
         snd (run (snd (createItemHandler Healthy emptyDB
                          (ItemBody None (Some "apple")))) later)).
Proof.
  destruct (create_then_get_round_trip Healthy emptyDB
              (ItemBody None (Some "apple")) (mkItem 0 "apple") eq_refl)
    as [Hcreated Hget].
  split; [reflexivity|]. split.
  - apply Hcreated; [reflexivity | simpl; tauto | reflexivity].
  - apply Hget. reflexivity.
Defined.

(** ** The scenario of the specification *)

Example Atoi_examples :
  Atoi "999999" = Some 999999 /\ Atoi "+7" = Some 7 /\ Atoi "-0" = Some 0 /\
  Atoi "9223372036854775807" = Some maxInt /\
  Atoi "9223372036854775808" = None /\
  Atoi "-9223372036854775808" = Some minInt /\
  Atoi "abc" = None /\ Atoi "" = None /\ Atoi "-" = None /\ Atoi "1_0" = None.
Proof. repeat split. Qed.

Example Decode_examples :
  Decode NoValue zeroItem = None /\
  Decode (FirstValue JNull "") zeroItem = Some zeroItem /\
  Decode (FirstValue (JObject []) "") zeroItem = Some zeroItem /\
  Decode (FirstValue (JObject [("Name", JString "a"); ("name", JString "b")]) "")
         zeroItem = Some (mkItem 0 "b") /\
  Decode (FirstValue (JObject [("other", JArray []); ("id", JNumber 3)]) " x")
         zeroItem = Some (mkItem 3 "") /\
  Decode (ItemBody (Some (maxInt + 1)) (Some "a")) zeroItem = None /\
  Decode (FirstValue (JObject [("id", JFloat "1.5")]) "") zeroItem = None /\
  Decode (FirstValue (JObject [("name", JNumber 5)]) "") zeroItem = None /\
  Decode (FirstValue (JArray []) "") zeroItem = None /\
  Decode (FirstValue (JString "a") "") zeroItem = None.
Proof. repeat split. Qed.

Example scenario_run :
  run emptyDB scenario
    = ([ writeJSON StatusCreated (marshalItem (mkItem 1 "apple"));
         writeJSON StatusCreated (marshalItem (mkItem 2 "banana"));
         writeJSON StatusOK
           (JArray [marshalItem (mkItem 1 "apple"); marshalItem (mkItem 2 "banana")]);
         writeJSON StatusOK (marshalItem (mkItem 1 "avocado"));
         mkResponse StatusNoContent None Empty;
         httpError "Item not found" StatusNotFound ],
       mkDB [mkItem 1 "avocado"] 2).
Proof. reflexivity. Qed.

(** * Further properties of the handlers *)

(** ** Statuses, payloads and failed requests *)

(** X1. Each handler answers with one of the status codes written in its
    body: 200 or 500 for the listing, 201, 400 or 500 for a create, 200, 400,
    404 or 500 for a lookup or an update, 204, 400, 404 or 500 for a
    delete. *)
Theorem handler_status_codes :
  forall (h : Health) (d : DB) (r : Request),
    In (status (fst (mux h d r))) (routeStatuses r).
Proof.
  intros h d [| body | idStr | idStr body | idStr]; simpl.
  - unfold getItemsHandler. destruct (querySelectAll h d); [|simpl; tauto].
    rewrite scanRows_app. simpl. tauto.
  - unfold createItemHandler.
    destruct (Decode body zeroItem) as [item|]; [|simpl; tauto].
    destruct (execInsert h (Name item) d) as [[res|e] d1]; simpl; tauto.
  - unfold getItemByIDHandler. destruct (Atoi idStr) as [i|]; [|simpl; tauto].
    destruct (queryRowByID h i d) as [item|[]]; simpl; tauto.
  - unfold updateItemHandler. destruct (Atoi idStr) as [i|]; [|simpl; tauto].
    destruct (Decode body zeroItem) as [item|]; [|simpl; tauto].
    destruct (execUpdate h (Name item) i d) as [[res|e] d1]; [|simpl; tauto].
    simpl. destruct (rowsAffected res =? 0); simpl; tauto.
  - unfold deleteItemHandler. destruct (Atoi idStr) as [i|]; [|simpl; tauto].
    destruct (execDelete h i d) as [[res|e] d1]; [|simpl; tauto].
    simpl. destruct (rowsAffected res =? 0); simpl; tauto.
Qed.

(** X2. A request that is answered with a 4xx or 5xx status leaves the store
    exactly as it was: no handler changes the table and then reports an
    error. *)
Theorem error_response_leaves_store :
  forall (h : Health) (d : DB) (r : Request),
    StatusBadRequest <= status (fst (mux h d r)) ->
    snd (mux h d r) = d.
Proof.
  intros h d [| body | idStr | idStr body | idStr]; simpl; intros Hst.
  - apply getItemsHandler_state.
  - apply createItemHandler_not_created. unfold StatusBadRequest, StatusCreated in *. lia.
  - apply getItemByIDHandler_state.
  - apply updateItemHandler_not_ok. unfold StatusBadRequest, StatusOK in *. lia.
  - apply deleteItemHandler_not_deleted.
    unfold StatusBadRequest, StatusNoContent in *. lia.
Qed.

Lemma error_response_leaves_store_witness :
  StatusBadRequest
    <= status (fst (mux Healthy (mkDB [mkItem 1 "apple"; mkItem 2 "banana"] 2)
                       (PUT_items_id "2" (ItemBody None (Some "apple"))))) /\
  snd (mux Healthy (mkDB [mkItem 1 "apple"; mkItem 2 "banana"] 2)
           (PUT_items_id "2" (ItemBody None (Some "apple"))))
    = mkDB [mkItem 1 "apple"; mkItem 2 "banana"] 2.
Proof.
  assert (StatusBadRequest
    <= status (fst (mux Healthy (mkDB [mkItem 1 "apple"; mkItem 2 "banana"] 2)
                       (PUT_items_id "2" (ItemBody None (Some "apple"))))))
    as Hst by (vm_compute; discriminate).
  split; [exact Hst|].
  exact (error_response_leaves_store Healthy
           (mkDB [mkItem 1 "apple"; mkItem 2 "banana"] 2)
           (PUT_items_id "2" (ItemBody None (Some "apple"))) Hst).
Defined.

(** X3. What a response carries goes with its status: a JSON document comes
    with the JSON content type and status 200 or 201, a plain-text message
    with the text content type and an error status, and the only response
    without a body is the 204 of a delete, which sets no content type. *)
Theorem payload_matches_status :
  forall (h : Health) (d : DB) (r : Request),
    let resp := fst (mux h d r) in
    match payload resp with
    | Json _ =>
        contentType resp = Some "application/json" /\
        (status resp = StatusOK \/ status resp = StatusCreated)
    | Text _ =>
        contentType resp = Some "text/plain; charset=utf-8" /\
        StatusBadRequest <= status resp
    | Empty =>
        contentType resp = None /\ status resp = StatusNoContent /\
        exists idStr, r = DELETE_items_id idStr
    end.
Proof.
  intros h d [| body | idStr | idStr body | idStr]; simpl.
  - unfold getItemsHandler. destruct (querySelectAll h d); [|now simpl].
    rewrite scanRows_app. simpl. tauto.
  - unfold createItemHandler.
    destruct (Decode body zeroItem) as [item|]; [|now simpl].
    destruct (execInsert h (Name item) d) as [[res|e] d1]; simpl;
      [tauto|now split].
  - unfold getItemByIDHandler. destruct (Atoi idStr) as [i|]; [|now simpl].
    destruct (queryRowByID h i d) as [item|[]]; simpl; (tauto || now split).
  - unfold updateItemHandler. destruct (Atoi idStr) as [i|]; [|now simpl].
    destruct (Decode body zeroItem) as [item|]; [|now simpl].
    destruct (execUpdate h (Name item) i d) as [[res|e] d1]; [|now simpl].
    simpl. destruct (rowsAffected res =? 0); simpl; (tauto || now split).
  - unfold deleteItemHandler. destruct (Atoi idStr) as [i|]; [|now simpl].
    destruct (execDelete h i d) as [[res|e] d1]; [|now simpl].
    simpl. destruct (rowsAffected res =? 0); simpl; [now split|].
    repeat split. now exists idStr.
Qed.

(** X4. While the store fails its statements no request succeeds and none
    changes the table: a request that fails validation is answered 400, and
    every other request, the listing included, 500. *)
Theorem failing_store_answers_500 :
  forall (d : DB) (r : Request),
    status (fst (mux Failing d r))
      = (if invalidRequest r then StatusBadRequest
         else StatusInternalServerError) /\
    snd (mux Failing d r) = d.
Proof.
  intros d [| body | idStr | idStr body | idStr]; simpl;
    unfold badPath, badBody, getItemsHandler, createItemHandler,
           getItemByIDHandler, updateItemHandler, deleteItemHandler; simpl.
  - now split.
  - destruct (Decode body zeroItem); now split.
  - destruct (Atoi idStr); now split.
  - destruct (Atoi idStr); [|now split].
    destruct (Decode body zeroItem); now split.
  - destruct (Atoi idStr); now split.
Qed.

(** ** Looking rows up *)

Lemma marshalItem_inj (r r' : Item) : marshalItem r = marshalItem r' -> r = r'.
Proof. destruct r, r'. unfold marshalItem. simpl. now intros [= -> ->]. Qed.

Lemma unique_by_column {B : Type} (col : Item -> B) (rows : list Item) (r r' : Item) :
  NoDup (map col rows) -> In r rows -> In r' rows -> col r = col r' -> r = r'.
Proof.
  induction rows as [|r0 rows IH]; simpl; [tauto|].
  intros Hnd Hr Hr' Heq. apply NoDup_cons_iff in Hnd. destruct Hnd as [Hr0 Hnd].
  destruct Hr as [->|Hr], Hr' as [->|Hr'].
  - reflexivity.
  - exfalso. apply Hr0. rewrite Heq. now apply in_map.
  - exfalso. apply Hr0. rewrite <- Heq. now apply in_map.
  - now apply IH.
Qed.

(** X5. In a table whose ids are distinct, GET /items/{id} on a healthy
    store is answered 200 with the object of a row exactly when that row is
    in the table under the path id: what a lookup returns is what the table
    holds, and every row of the table can be looked up. *)
Theorem get_by_id_returns_the_row :
  forall (d : DB) (idStr : string) (i : Z) (r : Item),
    NoDup (map ID (items d)) ->
    Atoi idStr = Some i ->
    (In r (items d) /\ ID r = i) <->
    getItemByIDHandler Healthy d idStr = (writeJSON StatusOK (marshalItem r), d).
Proof.
  intros d idStr i r Hnd Hs. unfold getItemByIDHandler, queryRowByID.
  rewrite Hs. split.
  - intros [Hin <-]. now rewrite find_hasID_In.
  - destruct (find (hasID i) (items d)) as [r'|] eqn:Hf; [|discriminate].
    unfold writeJSON, marshalItem. intros [= Hid Hname].
    apply find_hasID_some in Hf.
    assert (r' = r) as <-; [|exact Hf].
    apply marshalItem_inj. unfold marshalItem. now rewrite Hid, Hname.
Qed.

Lemma get_by_id_returns_the_row_witness :
  getItemByIDHandler Healthy (mkDB [mkItem 1 "apple"; mkItem 2 "banana"] 2) "2"
    = (writeJSON StatusOK (marshalItem (mkItem 2 "banana")),
       mkDB [mkItem 1 "apple"; mkItem 2 "banana"] 2).
Proof.
  apply (get_by_id_returns_the_row
           (mkDB [mkItem 1 "apple"; mkItem 2 "banana"] 2) "2" 2 (mkItem 2 "banana")).
  - simpl. repeat constructor; simpl; intuition discriminate.
  - reflexivity.
  - simpl. tauto.
Defined.

(** X6. A request changes what GET /items/{id} answers only for the id it
    names in its path or the id it creates: for every other id the lookup
    gives the same response after the request as before it. *)
Theorem other_ids_unaffected :
  forall (h h' : Health) (d : DB) (r : Request) (idStr : string) (j : Z),
    Atoi idStr = Some j ->
    target r <> Some j ->
    createdID r (fst (mux h d r)) <> Some j ->
    fst (getItemByIDHandler h' (snd (mux h d r)) idStr)
      = fst (getItemByIDHandler h' d idStr).
Proof.
  intros h h' d r idStr j Hs Htarget Hcreated.
  assert (h' = Healthy ->
          find (hasID j) (items (snd (mux h d r))) = find (hasID j) (items d))
    as Hfind.
  { intros _. destruct r as [| body | idStr' | idStr' body | idStr']; simpl in *.
    - now rewrite getItemsHandler_state.
    - destruct (createItemHandler_state h d body)
        as [[_ ->]|(name & _ & Hresp & Hd)]; [reflexivity|].
      rewrite Hresp in Hcreated. rewrite Hd. simpl in *.
      apply find_hasID_app_old. simpl. intros Heq. apply Hcreated.
      unfold responseID. simpl. now rewrite Heq.
    - now rewrite getItemByIDHandler_state.
    - destruct (Z.eq_dec (status (fst (updateItemHandler h d idStr' body))) StatusOK)
        as [Hst|Hst]; [|now rewrite updateItemHandler_not_ok].
      destruct (updateItemHandler h d idStr' body) as [resp d'] eqn:Hout.
      destruct (updateItemHandler_ok _ _ _ _ _ _ Hout Hst)
        as (i & item & Hi & _ & _ & _ & _ & ->).
      simpl. rewrite find_hasID_map_renamed.
      destruct (find (hasID j) (items d)) as [r0|] eqn:Hf; [|reflexivity].
      simpl. f_equal. apply renamed_other.
      apply find_hasID_some in Hf. destruct Hf as [_ ->]. congruence.
    - destruct (deleteItemHandler_state h d idStr') as [->|(i & Hi & ->)];
        [reflexivity|].
      simpl. apply find_hasID_filter_other. congruence. }
  unfold getItemByIDHandler, queryRowByID. rewrite Hs.
  destruct h'; [|reflexivity]. rewrite (Hfind eq_refl).
  now destruct (find (hasID j) (items d)).
Qed.

Lemma other_ids_unaffected_witness :
  fst (getItemByIDHandler Healthy
         (snd (mux Healthy (mkDB [mkItem 1 "apple"; mkItem 2 "banana"] 2)
                   (DELETE_items_id "2"))) "1")
    = fst (getItemByIDHandler Healthy
             (mkDB [mkItem 1 "apple"; mkItem 2 "banana"] 2) "1").
Proof.
  apply (other_ids_unaffected Healthy Healthy
           (mkDB [mkItem 1 "apple"; mkItem 2 "banana"] 2)
           (DELETE_items_id "2") "1" 1).
  - reflexivity.
  - simpl. vm_compute. discriminate.
  - simpl. discriminate.
Defined.

(** ** Updating *)

Lemma rows_with_ID_nonzero (i : Z) (rows : list Item) :
  In i (map ID rows) ->
  (Z.of_nat (List.length (filter (hasID i) rows)) =? 0) = false.
Proof.
  intros Hin. apply Z.eqb_neq. intros Hn. apply length_zero_nil in Hn.
  apply in_map_iff in Hin. destruct Hin as (r & Hr & Hin).
  assert (In r (filter (hasID i) rows)) as Habs
    by (apply filter_In; split; [assumption|now apply hasID_true]).
  rewrite Hn in Habs. contradiction.
Qed.

Lemma no_conflict_existsb (i : Z) (name : string) (rows : list Item) :
  (forall r, In r rows -> ID r <> i -> Name r <> name) ->
  existsb (fun r => negb (hasID i r) && hasName name r) rows = false.
Proof.
  intros Huniq. destruct (existsb _ rows) eqn:Hex; [|reflexivity].
  apply existsb_exists in Hex. destruct Hex as (r & Hin & Hr).
  apply andb_true_iff in Hr. destruct Hr as [Hid Hname].
  apply negb_true_iff, hasID_false in Hid. apply hasName_true in Hname.
  exfalso. now apply (Huniq r).
Qed.

Lemma updateItemHandler_healthy_ok d idStr i body item :
  Atoi idStr = Some i ->
  Decode body zeroItem = Some item ->
  In i (map ID (items d)) ->
  (forall r, In r (items d) -> ID r <> i -> Name r <> Name item) ->
  updateItemHandler Healthy d idStr body
    = (writeJSON StatusOK (marshalItem (mkItem i (Name item))),
       mkDB (map (renamed i (Name item)) (items d)) (sqlite_sequence d)).
Proof.
  intros Hs Hdec Hin Huniq. unfold updateItemHandler, execUpdate.
  rewrite Hs, Hdec.
  apply existsb_hasID in Hin as Hex. rewrite Hex.
  rewrite no_conflict_existsb by assumption.
  unfold RowsAffected. cbn [rowsAffected].
  now rewrite rows_with_ID_nonzero.
Qed.

(** X7. PUT /items/{id} with a name that another row already holds is
    answered 500 "Failed to update item" and leaves the store as it was:
    the UNIQUE constraint guards updates as it guards creates. *)
Theorem update_name_conflict_500 :
  forall (h : Health) (d : DB) (idStr : string) (i : Z) (body : Body)
         (item r : Item),
    Atoi idStr = Some i ->
    Decode body zeroItem = Some item ->
    In i (map ID (items d)) ->
    In r (items d) -> ID r <> i -> Name r = Name item ->
    updateItemHandler h d idStr body
      = (httpError "Failed to update item" StatusInternalServerError, d).
Proof.
  intros h d idStr i body item r Hs Hdec Hin Hr Hid Hname.
  unfold updateItemHandler, execUpdate. rewrite Hs, Hdec.
  destruct h; [|reflexivity].
  apply existsb_hasID in Hin. rewrite Hin.
  assert (existsb (fun r => negb (hasID i r) && hasName (Name item) r) (items d)
          = true) as ->; [|reflexivity].
  apply existsb_exists. exists r. split; [assumption|].
  apply andb_true_iff. split.
  - now apply negb_true_iff, hasID_false.
  - now apply hasName_true.
Qed.

Lemma update_name_conflict_500_witness :
  updateItemHandler Healthy (mkDB [mkItem 1 "apple"; mkItem 2 "banana"] 2)
                    "2" (ItemBody None (Some "apple"))
    = (httpError "Failed to update item" StatusInternalServerError,
       mkDB [mkItem 1 "apple"; mkItem 2 "banana"] 2).
Proof.
  apply (update_name_conflict_500 Healthy
           (mkDB [mkItem 1 "apple"; mkItem 2 "banana"] 2) "2" 2
           (ItemBody None (Some "apple")) (mkItem 0 "apple") (mkItem 1 "apple")).
  - reflexivity.
  - reflexivity.
  - simpl. tauto.
  - simpl. tauto.
  - simpl. lia.
  - reflexivity.
Defined.

(** X8. On a healthy store, PUT /items/{id} for an id that is in the table,
    with a name no other row holds, is answered 200 with the path id and the
    new name, and the GET /items/{id} that follows gives the very response
    the PUT gave. *)
Theorem update_then_get :
  forall (d : DB) (idStr : string) (i : Z) (body : Body) (item : Item),
    Atoi idStr = Some i ->
    Decode body zeroItem = Some item ->
    In i (map ID (items d)) ->
    (forall r, In r (items d) -> ID r <> i -> Name r <> Name item) ->
    let out := updateItemHandler Healthy d idStr body in
    fst out = writeJSON StatusOK (marshalItem (mkItem i (Name item))) /\
    getItemByIDHandler Healthy (snd out) idStr = out.
Proof.
  intros d idStr i body item Hs Hdec Hin Huniq out. subst out.
  rewrite (updateItemHandler_healthy_ok d idStr i body item) by assumption.
  split; [reflexivity|].
  unfold getItemByIDHandler, queryRowByID. rewrite Hs. cbn [items snd].
  rewrite find_hasID_map_renamed.
  destruct (find (hasID i) (items d)) as [r|] eqn:Hf.
  - apply find_hasID_some in Hf. destruct Hf as [_ Hr].
    simpl. now rewrite renamed_same.
  - exfalso. apply in_map_iff in Hin. destruct Hin as (r & Hr & Hin).
    apply (find_none _ _ Hf) in Hin. apply hasID_true in Hr. congruence.
Qed.

Lemma update_then_get_witness :
  getItemByIDHandler Healthy
    (snd (updateItemHandler Healthy
            (mkDB [mkItem 1 "apple"; mkItem 2 "banana"] 2)
            "1" (ItemBody (Some 9) (Some "avocado")))) "1"
    = updateItemHandler Healthy
        (mkDB [mkItem 1 "apple"; mkItem 2 "banana"] 2)
        "1" (ItemBody (Some 9) (Some "avocado")).
Proof.
  apply (update_then_get (mkDB [mkItem 1 "apple"; mkItem 2 "banana"] 2) "1" 1
           (ItemBody (Some 9) (Some "avocado")) (mkItem 9 "avocado")).
  - reflexivity.
  - reflexivity.
  - simpl. tauto.
  - simpl. intros r [<-|[<-|[]]]; simpl; intros; [lia|discriminate].
Defined.

(** X9. In a table with distinct ids and distinct names, a PUT whose body
    decodes to the name the row already has is answered 200, not 404, and
    leaves the store as it was: the row counts as affected although nothing
    in it changes. *)
Theorem update_same_name_200 :
  forall (d : DB) (idStr : string) (i : Z) (body : Body) (item : Item),
    storage_inv d ->
    Atoi idStr = Some i ->
    Decode body zeroItem = Some item ->
    In (mkItem i (Name item)) (items d) ->
    updateItemHandler Healthy d idStr body
      = (writeJSON StatusOK (marshalItem (mkItem i (Name item))), d).
Proof.
  intros d idStr i body item [Hids Hnames] Hs Hdec Hin.
  rewrite (updateItemHandler_healthy_ok d idStr i body item); try assumption.
  - f_equal. destruct d as [rows s]. simpl in *. f_equal.
    rewrite <- (map_id rows) at 2. apply map_ext_in. intros r Hr.
    destruct (Z.eq_dec (ID r) i) as [Heq|Hne]; [|now apply renamed_other].
    rewrite renamed_same by assumption.
    now apply (unique_by_column ID rows _ _ Hids Hin Hr).
  - apply in_map_iff. now exists (mkItem i (Name item)).
  - intros r Hr Hid Hname. apply Hid.
    now rewrite (unique_by_column Name (items d) _ _ Hnames Hr Hin).
Qed.

Lemma update_same_name_200_witness :
  updateItemHandler Healthy (mkDB [mkItem 1 "apple"; mkItem 2 "banana"] 2)
                    "2" (ItemBody (Some 7) (Some "banana"))
    = (writeJSON StatusOK (marshalItem (mkItem 2 "banana")),
       mkDB [mkItem 1 "apple"; mkItem 2 "banana"] 2).
Proof.
  apply (update_same_name_200 (mkDB [mkItem 1 "apple"; mkItem 2 "banana"] 2)
           "2" 2 (ItemBody (Some 7) (Some "banana")) (mkItem 7 "banana")).
  - split; simpl; repeat constructor; simpl; intuition discriminate.
  - reflexivity.
  - reflexivity.
  - simpl. tauto.
Defined.

(** ** Deleting *)


Lemma maxID_filter_le (p : Item -> bool) (rows : list Item) :
  maxID (filter p rows) <= maxID rows.
Proof.
  induction rows as [|r rows IH]; simpl; [lia|].
  destruct (p r); simpl; lia.
Qed.

(** What a 204 answer of [deleteItemHandler] says about the delete. *)
Lemma deleteItemHandler_deleted h d idStr :
  status (fst (deleteItemHandler h d idStr)) = StatusNoContent ->
  exists i,
    Atoi idStr = Some i /\ In i (map ID (items d)) /\
    deleteItemHandler h d idStr
      = (mkResponse StatusNoContent None Empty,
         mkDB (filter (fun r => negb (hasID i r)) (items d)) (sqlite_sequence d)).
Proof.
  unfold deleteItemHandler.
  destruct (Atoi idStr) as [i|]; [|discriminate].
  destruct (execDelete h i d) as [[res|e] d1] eqn:Hex; [|discriminate].
  unfold execDelete in Hex. destruct h; [|discriminate].
  injection Hex as <- <-. unfold RowsAffected. cbn [rowsAffected].
  destruct (Z.of_nat (List.length (filter (hasID i) (items d))) =? 0) eqn:Hn;
    [discriminate|].
  intros _. exists i. repeat split.
  destruct (existsb (hasID i) (items d)) eqn:Hex; [now apply existsb_hasID|].
  exfalso. apply Z.eqb_neq in Hn. apply Hn.
  rewrite filter_hasID_none; [reflexivity|].
  rewrite <- existsb_hasID. congruence.
Qed.

Lemma not_In_filtered_ID (i : Z) (rows : list Item) :
  ~ In i (map ID (filter (fun r => negb (hasID i r)) rows)).
Proof.
  rewrite in_map_iff. intros (r & Hr & Hin). apply filter_In in Hin.
  destruct Hin as [_ Hin]. apply negb_true_iff, hasID_false in Hin. contradiction.
Qed.



(** X11. A second DELETE of an id that was just deleted with 204 is answered
    404 and leaves the store as the first delete left it. *)
Theorem delete_twice_404 :
  forall (h : Health) (d : DB) (idStr : string),
    let out := deleteItemHandler h d idStr in
    status (fst out) = StatusNoContent ->
    deleteItemHandler Healthy (snd out) idStr
      = (httpError "Item not found" StatusNotFound, snd out).
Proof.
  intros h d idStr out Hst. subst out.
  destruct (deleteItemHandler_deleted h d idStr Hst) as (i & Hs & _ & ->).
  cbn [snd]. unfold deleteItemHandler. rewrite Hs.
  rewrite execDelete_missing; [reflexivity|]. apply not_In_filtered_ID.
Qed.

Lemma delete_twice_404_witness :
  deleteItemHandler Healthy
    (snd (deleteItemHandler Healthy
            (mkDB [mkItem 1 "apple"; mkItem 2 "banana"] 2) "2")) "2"
    = (httpError "Item not found" StatusNotFound,
       snd (deleteItemHandler Healthy
              (mkDB [mkItem 1 "apple"; mkItem 2 "banana"] 2) "2")).
Proof.
  apply (delete_twice_404 Healthy
           (mkDB [mkItem 1 "apple"; mkItem 2 "banana"] 2) "2").
  reflexivity.
Defined.

(** X12. Deleting a row frees its name: in a table with distinct names,
    after the row (i, N) is deleted a POST /items whose body decodes to the
    name N is answered 201 and N is in the table again, as long as a rowid
    is left. *)
Theorem delete_frees_name :
  forall (d : DB) (idStr : string) (i : Z) (body : Body) (item : Item),
    NoDup (map Name (items d)) ->
    Atoi idStr = Some i ->
    Decode body zeroItem = Some item ->
    In (mkItem i (Name item)) (items d) ->
    Z.max (maxID (items d)) (sqlite_sequence d) < maxRowid ->
    let d1 := snd (deleteItemHandler Healthy d idStr) in
    status (fst (deleteItemHandler Healthy d idStr)) = StatusNoContent /\
    status (fst (createItemHandler Healthy d1 body)) = StatusCreated /\
    In (Name item) (map Name (items (snd (createItemHandler Healthy d1 body)))).
Proof.
  intros d idStr i body item Hnames Hs Hdec Hin Hroom d1. subst d1.
  assert (In i (map ID (items d))) as Hi
    by (apply in_map_iff; now exists (mkItem i (Name item))).
  unfold deleteItemHandler at 1 2 3, execDelete, RowsAffected. rewrite Hs.
  cbn [rowsAffected]. rewrite rows_with_ID_nonzero by assumption.
  cbn [fst snd status]. split; [reflexivity|].
  unfold createItemHandler. rewrite Hdec.
  rewrite execInsert_fresh.
  - cbn [items]. split; [reflexivity|].
    cbn [LastInsertId lastInsertId snd items]. rewrite map_app, in_app_iff.
    right. simpl. now left.
  - cbn [items]. rewrite in_map_iff. intros (r & Hr & Hr').
    apply filter_In in Hr'. destruct Hr' as [Hr' Hid].
    apply negb_true_iff, hasID_false in Hid. apply Hid.
    now rewrite (unique_by_column Name (items d) r (mkItem i (Name item))
                   Hnames Hr' Hin Hr).
  - cbn [items sqlite_sequence].
    pose proof (maxID_filter_le (fun r => negb (hasID i r)) (items d)). lia.
Qed.

Lemma delete_frees_name_witness :
  status (fst (createItemHandler Healthy
                 (snd (deleteItemHandler Healthy
                         (mkDB [mkItem 1 "apple"; mkItem 2 "banana"] 2) "2"))
                 (ItemBody None (Some "banana"))))
    = StatusCreated.
Proof.
  refine (proj1 (proj2 (delete_frees_name
                          (mkDB [mkItem 1 "apple"; mkItem 2 "banana"] 2)
                          "2" 2 (ItemBody None (Some "banana"))
                          (mkItem 0 "banana") _ _ _ _ _))).
  - simpl. repeat constructor; simpl; intuition discriminate.
  - reflexivity.
  - reflexivity.
  - simpl. tauto.
  - reflexivity.
Defined.

(** ** Creating and listing *)

(** X13. After a POST /items answered 201, GET /items on a healthy store is
    answered 200 with an array that holds the object the create returned and
    the object of every row that was in the table before, and has exactly
    one element more than the table had rows. *)
Theorem created_item_is_listed :
  forall (h : Health) (d : DB) (body : Body),
    let out := createItemHandler h d body in
    status (fst out) = StatusCreated ->
    exists (j : json) (listed : list json),
      payload (fst out) = Json j /\
      getItemsHandler Healthy (snd out) = (writeJSON StatusOK (JArray listed), snd out) /\
      In j listed /\
      (forall r, In r (items d) -> In (marshalItem r) listed) /\
      List.length listed = S (List.length (items d)).
Proof.
  intros h d body out Hst. destruct out as [resp d'] eqn:Hout.
  destruct (createItemHandler_created _ _ _ _ _ Hout Hst)
    as (item & _ & _ & _ & -> & ->).
  set (new := mkItem (Z.max (maxID (items d)) (sqlite_sequence d) + 1) (Name item)).
  exists (marshalItem new), (map marshalItem (items d ++ [new])).
  cbn [fst snd]. split; [reflexivity|]. split.
  - apply getItemsHandler_rows. cbn [items]. now destruct (items d).
  - split; [|split].
    + apply in_map, in_app_iff. right. now left.
    + intros r Hr. apply in_map, in_app_iff. now left.
    + rewrite length_map, length_app. simpl. lia.
Qed.

Lemma created_item_is_listed_witness :
  exists (j : json) (listed : list json),
    payload (fst (createItemHandler Healthy (mkDB [mkItem 1 "apple"] 1)
                    (ItemBody None (Some "banana")))) = Json j /\
    getItemsHandler Healthy
      (snd (createItemHandler Healthy (mkDB [mkItem 1 "apple"] 1)
              (ItemBody None (Some "banana"))))
      = (writeJSON StatusOK (JArray listed),
         snd (createItemHandler Healthy (mkDB [mkItem 1 "apple"] 1)
                (ItemBody None (Some "banana")))) /\
    In j listed /\
    (forall r, In r (items (mkDB [mkItem 1 "apple"] 1)) ->
               In (marshalItem r) listed) /\
    List.length listed = S (List.length (items (mkDB [mkItem 1 "apple"] 1))).
Proof.
  apply (created_item_is_listed Healthy (mkDB [mkItem 1 "apple"] 1)
           (ItemBody None (Some "banana"))).
  reflexivity.
Defined.

(** X14. Once a POST /items whose body decodes to the name N was answered
    201, every further POST /items whose body decodes to the name N, on the
    store the first one left, is answered 500 and leaves that store as it
    is, whatever id that body carries. *)
Theorem second_create_same_name_500 :
  forall (h h' : Health) (d : DB) (body body' : Body) (item item' : Item),
    Decode body zeroItem = Some item ->
    Decode body' zeroItem = Some item' ->
    Name item' = Name item ->
    let out := createItemHandler h d body in
    status (fst out) = StatusCreated ->
    createItemHandler h' (snd out) body'
      = (httpError "Failed to create item" StatusInternalServerError, snd out).
Proof.
  intros h h' d body body' item item' Hdec Hdec' Hname out Hst.
  destruct out as [resp d'] eqn:Hout.
  destruct (createItemHandler_created _ _ _ _ _ Hout Hst)
    as (item0 & Hdec0 & _ & _ & _ & ->).
  assert (item0 = item) as -> by congruence. cbn [snd].
  unfold createItemHandler. rewrite Hdec'.
  destruct (execInsert h' (Name item') _) as [[res|e] d1] eqn:Hex.
  - apply execInsert_ok in Hex. destruct Hex as (_ & _ & Hfresh & _).
    exfalso. apply Hfresh. cbn [items]. rewrite map_app, in_app_iff.
    right. simpl. left. now symmetry.
  - apply execInsert_err in Hex. now subst.
Qed.

Lemma second_create_same_name_500_witness :
  createItemHandler Healthy
    (snd (createItemHandler Healthy emptyDB (ItemBody None (Some "apple"))))
    (ItemBody (Some 5) (Some "apple"))
    = (httpError "Failed to create item" StatusInternalServerError,
       snd (createItemHandler Healthy emptyDB (ItemBody None (Some "apple")))).
Proof.
  apply (second_create_same_name_500 Healthy Healthy emptyDB
           (ItemBody None (Some "apple")) (ItemBody (Some 5) (Some "apple"))
           (mkItem 0 "apple") (mkItem 5 "apple")); reflexivity.
Defined.

(** ** Sequences of requests *)

Lemma mux_read_state h d r : isRead r = true -> snd (mux h d r) = d.
Proof.
  destruct r; try discriminate; intros _; simpl.
  - apply getItemsHandler_state.
  - apply getItemByIDHandler_state.
Qed.

(** X15. Reads can be dropped from a sequence of requests without changing
    anything else: the writes alone, served in the same order, get the same
    responses and leave the same store. *)
Theorem reads_are_transparent :
  forall (trace : list (Health * Request)) (d : DB),
    run d (writes trace)
      = (writeResponses trace (fst (run d trace)), snd (run d trace)).
Proof.
  induction trace as [|[h r] rest IH]; intros d; [reflexivity|].
  rewrite run_cons. cbn [writes filter snd fst writeResponses].
  destruct (isRead r) eqn:Hr; cbn [negb].
  - rewrite (mux_read_state h d r Hr). apply IH.
  - rewrite run_cons. fold (writes rest). now rewrite IH.
Qed.

(** ** The AUTOINCREMENT sequence *)

Lemma maxID_le_bound (rows : list Item) (s : Z) :
  0 <= s -> Forall (fun r => 1 <= ID r <= s) rows -> maxID rows <= s.
Proof.
  intros Hs Hall. induction Hall as [|r rows Hr _ IH]; simpl; lia.
Qed.

Lemma seq_inv_mux h d r : seq_inv d -> seq_inv (snd (mux h d r)).
Proof.
  intros [Hseq Hall]. destruct r as [| body | idStr | idStr body | idStr]; simpl.
  - rewrite getItemsHandler_state. now split.
  - destruct (createItemHandler h d body) as [resp d'] eqn:Hout.
    destruct (Z.eq_dec (status resp) StatusCreated) as [Hst|Hst].
    + destruct (createItemHandler_created _ _ _ _ _ Hout Hst)
        as (item & _ & Hid & _ & _ & ->).
      cbv zeta in Hid. simpl.
      pose proof (maxID_le_bound _ _ (proj1 Hseq) Hall) as Hmax.
      split; simpl; [lia|].
      apply Forall_app. split.
      * eapply Forall_impl; [|exact Hall]. simpl. intros; lia.
      * constructor; [simpl; lia|constructor].
    + pose proof (createItemHandler_not_created h d body) as Hsame.
      rewrite Hout in Hsame. simpl in *. rewrite Hsame by assumption. now split.
  - rewrite getItemByIDHandler_state. now split.
  - destruct (updateItemHandler_state h d idStr body)
      as [->|(i & name & _ & _ & ->)]; [now split|].
    split; simpl; [assumption|].
    apply Forall_map. eapply Forall_impl; [|exact Hall].
    intros r0 Hr0. unfold renamed. now destruct (hasID i r0).
  - destruct (deleteItemHandler_state h d idStr) as [->|(i & _ & ->)];
      [now split|].
    split; simpl; [assumption|].
    apply Forall_forall. intros r0 Hr0. apply filter_In in Hr0.
    rewrite Forall_forall in Hall. now apply Hall.
Qed.

Lemma seq_inv_reachable d : reachable d -> seq_inv d.
Proof.
  induction 1 as [|h d r _ IH].
  - split; [unfold maxRowid; simpl; lia|constructor].
  - now apply seq_inv_mux.
Qed.

(** X17. In every state the service can reach, the ids in the table are
    positive and at most the AUTOINCREMENT sequence, which is itself at most
    the largest rowid.  So GET /items/{id} for an id that is zero, negative
    or above the sequence is answered 404 on a healthy store. *)
Theorem ids_within_sequence :
  forall d : DB,
    reachable d ->
    seq_inv d /\
    forall idStr i,
      Atoi idStr = Some i ->
      i <= 0 \/ sqlite_sequence d < i ->
      getItemByIDHandler Healthy d idStr
        = (httpError "Item not found" StatusNotFound, d).
Proof.
  intros d Hd. pose proof (seq_inv_reachable d Hd) as Hinv.
  split; [exact Hinv|]. intros idStr i Hs Hi.
  unfold getItemByIDHandler, queryRowByID. rewrite Hs.
  rewrite find_hasID_none; [reflexivity|].
  rewrite in_map_iff. intros (r & Hr & Hin).
  destruct Hinv as [_ Hall]. rewrite Forall_forall in Hall.
  specialize (Hall r Hin). lia.
Qed.

Lemma ids_within_sequence_witness :
  seq_inv (snd (mux Healthy emptyDB (POST_items (ItemBody None (Some "apple")))))
  /\
  getItemByIDHandler Healthy
    (snd (mux Healthy emptyDB (POST_items (ItemBody None (Some "apple"))))) "0"
    = (httpError "Item not found" StatusNotFound,
       snd (mux Healthy emptyDB (POST_items (ItemBody None (Some "apple"))))).
Proof.
  destruct (ids_within_sequence
              (snd (mux Healthy emptyDB (POST_items (ItemBody None (Some "apple")))))
              (reachable_step Healthy emptyDB
                 (POST_items (ItemBody None (Some "apple"))) reachable_init))
    as [Hinv Hget].
  split; [exact Hinv|]. apply (Hget "0" 0); [reflexivity|lia].
Defined.

(** X18. When the table or the AUTOINCREMENT sequence has reached the
    largest rowid, POST /items with a well-formed body is answered 500 and
    the store is left as it was: no id is reused or wrapped around. *)
Theorem create_without_rowid_500 :
  forall (h : Health) (d : DB) (body : Body),
    badBody body = false ->
    maxRowid <= Z.max (maxID (items d)) (sqlite_sequence d) ->
    createItemHandler h d body
      = (httpError "Failed to create item" StatusInternalServerError, d).
Proof.
  intros h d body Hbody Hfull. unfold createItemHandler, badBody in *.
  destruct (Decode body zeroItem) as [item|]; [|discriminate].
  destruct (execInsert h (Name item) d) as [[res|e] d1] eqn:Hex.
  - apply execInsert_ok in Hex. cbv zeta in Hex. lia.
  - apply execInsert_err in Hex. now subst.
Qed.

Lemma create_without_rowid_500_witness :
  createItemHandler Healthy (mkDB [mkItem 1 "apple"] maxRowid)
                    (ItemBody None (Some "banana"))
    = (httpError "Failed to create item" StatusInternalServerError,
       mkDB [mkItem 1 "apple"] maxRowid).
Proof.
  apply (create_without_rowid_500 Healthy (mkDB [mkItem 1 "apple"] maxRowid)
           (ItemBody None (Some "banana"))).
  - reflexivity.
  - vm_compute. discriminate.
Defined.

(** ** Path ids *)



(** X21. A leading plus sign and a leading zero do not change the id a path
    value denotes: before a digit, "+" and "0" are read away, so each of the
    three routes on /items/{id} treats /items/+7 and /items/07 as
    /items/7. *)
Theorem path_id_sign_and_zero :
  forall (c : ascii) (rest : string),
    isDigit c = true ->
    Atoi (String "+" (String c rest)) = Atoi (String c rest) /\
    Atoi (String "0" (String c rest)) = Atoi (String c rest) /\
    forall h d body,
      mux h d (GET_items_id (String "+" (String c rest)))
        = mux h d (GET_items_id (String c rest)) /\
      mux h d (GET_items_id (String "0" (String c rest)))
        = mux h d (GET_items_id (String c rest)) /\
      mux h d (PUT_items_id (String "+" (String c rest)) body)
        = mux h d (PUT_items_id (String c rest) body) /\
      mux h d (PUT_items_id (String "0" (String c rest)) body)
        = mux h d (PUT_items_id (String c rest) body) /\
      mux h d (DELETE_items_id (String "+" (String c rest)))
        = mux h d (DELETE_items_id (String c rest)) /\
      mux h d (DELETE_items_id (String "0" (String c rest)))
        = mux h d (DELETE_items_id (String c rest)).
Proof.
  intros c rest Hc.
  assert (Atoi (String "+" (String c rest)) = Atoi (String c rest)) as Hplus.
  { unfold Atoi.
    destruct (Ascii.eqb_spec c "-") as [->|_]; [discriminate Hc|].
    destruct (Ascii.eqb_spec c "+") as [->|_]; [discriminate Hc|].
    reflexivity. }
  assert (Atoi (String "0" (String c rest)) = Atoi (String c rest)) as Hzero.
  { unfold Atoi.
    destruct (Ascii.eqb_spec c "-") as [->|_]; [discriminate Hc|].
    destruct (Ascii.eqb_spec c "+") as [->|_]; [discriminate Hc|].
    reflexivity. }
  split; [exact Hplus|]. split; [exact Hzero|].
  intros h d body. cbn [mux].
  unfold getItemByIDHandler, updateItemHandler, deleteItemHandler.
  rewrite Hplus, Hzero. repeat split.
Qed.

Lemma path_id_sign_and_zero_witness :
  Atoi "+7" = Atoi "7" /\ Atoi "07" = Atoi "7" /\
  mux Healthy (mkDB [mkItem 7 "pear"] 7) (DELETE_items_id "+7")
    = mux Healthy (mkDB [mkItem 7 "pear"] 7) (DELETE_items_id "7").
Proof.
  destruct (path_id_sign_and_zero "7" "" eq_refl) as (Hplus & Hzero & Hmux).
  split; [exact Hplus|]. split; [exact Hzero|].
  exact (proj1 (proj2 (proj2 (proj2 (proj2
           (Hmux Healthy (mkDB [mkItem 7 "pear"] 7) NoValue)))))).
Defined.

(** ** What a create adds *)

(** X22. A POST /items answered 201 adds exactly the row it returns: the
    object in the response is the new row, the row was not in the table
    before, and the table afterwards holds that row and the rows it held
    before, unchanged, and nothing else. *)
Theorem create_adds_one_row :
  forall (h : Health) (d : DB) (body : Body),
    let out := createItemHandler h d body in
    status (fst out) = StatusCreated ->
    exists new : Item,
      fst out = writeJSON StatusCreated (marshalItem new) /\
      ~ In (ID new) (map ID (items d)) /\
      ~ In (Name new) (map Name (items d)) /\
      (forall r, In r (items (snd out)) <-> In r (items d) \/ r = new) /\
      List.length (items (snd out)) = S (List.length (items d)).
Proof.
  intros h d body out Hst. destruct out as [resp d'] eqn:Hout.
  destruct (createItemHandler_created _ _ _ _ _ Hout Hst)
    as (item & _ & _ & Hfresh & -> & ->).
  set (new := mkItem (Z.max (maxID (items d)) (sqlite_sequence d) + 1) (Name item)).
  exists new. cbn [fst snd items]. repeat split.
  - rewrite in_map_iff. intros (r & Hr & Hin). apply maxID_bound in Hin.
    subst new. simpl in Hr. lia.
  - exact Hfresh.
  - rewrite in_app_iff. simpl. intuition.
  - rewrite in_app_iff. simpl. intuition.
  - rewrite length_app. simpl. lia.
Qed.

Lemma create_adds_one_row_witness :
  exists new : Item,
    fst (createItemHandler Healthy (mkDB [mkItem 1 "apple"] 4)
           (ItemBody (Some 1) (Some "banana")))
      = writeJSON StatusCreated (marshalItem new) /\
    ~ In (ID new) (map ID (items (mkDB [mkItem 1 "apple"] 4))).
Proof.
  destruct (create_adds_one_row Healthy (mkDB [mkItem 1 "apple"] 4)
              (ItemBody (Some 1) (Some "banana")) eq_refl)
    as (new & Hresp & Hid & _).
  exists new. split; [exact Hresp|exact Hid].
Defined.
